(** * agentspace-demo-agents: response normaliser, lookup tools and CLI scripts

    A shallow embedding of the Python sources under [agentspace_demo_agent/]:

    - [invocations/response_utils.py]: [process_stream_response] and
      [display_response_parts];
    - [agents/adk_agent.py]: the tools [get_weather] and [get_current_time],
      and the event loop and summary of the demo in [main];
    - [invocations/invoke_adk_agent_deployed.py]: the [__main__] block and
      [test_deployed_agent];
    - [invocations/invoke_adk_agent_local.py]: [test_agent];
    - [deployments/deploy_to_agentspace.py]: [get_access_token],
      [deploy_to_agentspace] and [main];
    - [deployments/deploy_adk_agent.py]: [generate_requirements],
      [deploy_agent] and [main].

    Python values are an inductive type, raised exceptions are the [Raise]
    arm of a result type, and everything the scripts obtain from outside
    (environment variables, the clock, sub-processes, the platform SDK, the
    HTTP endpoint) is an explicit argument. *)

From Stdlib Require Import String Ascii List ZArith Bool Lia.
Import ListNotations.

Local Open Scope string_scope.
Local Open Scope list_scope.

(** String concatenation, kept apart from list concatenation. *)
Infix "^^" := String.append (at level 60, right associativity).

(** ** Python values and built-in operations *)

Module Py.

(** The exception classes the built-in operations used by the sources raise. *)
Inductive exn : Type :=
| TypeError
| AttributeError
| KeyError.

(** The outcome of evaluating an expression: a value or a raised exception. *)
Inductive result (A : Type) : Type :=
| Ok (a : A)
| Raise (e : exn).

Arguments Ok {A} a.
Arguments Raise {A} e.

Definition bind {A B : Type} (r : result A) (k : A -> result B) : result B :=
  match r with
  | Ok a => k a
  | Raise e => Raise e
  end.

(** Values as they come out of a decoded JSON stream.  A dict is the list of
    its items in insertion order; a float is kept as its bit pattern, the
    sources never compute on one. *)
#[warnings="-register-all"]
Inductive value : Type :=
| VNone
| VBool (b : bool)
| VInt (n : Z)
| VFloat (bits : Z)
| VStr (s : string)
| VList (items : list value)
| VDict (items : list (string * value)).

(** [d.get(k)] as an option: the first item stored under [k]. *)
Fixpoint lookup (k : string) (d : list (string * value)) : option value :=
  match d with
  | [] => None
  | (k', v) :: d' => if String.eqb k k' then Some v else lookup k d'
  end.

(** [k in d] for a dict. *)
Definition mem (k : string) (d : list (string * value)) : bool :=
  match lookup k d with
  | Some _ => true
  | None => false
  end.

(** [x == k] for a string [k]: only a string equals a string. *)
Definition eq_str (k : string) (x : value) : bool :=
  match x with
  | VStr s => String.eqb s k
  | _ => false
  end.

(** [k in s] for two strings: [k] occurs in [s] as a substring. *)
Fixpoint is_infix (k s : string) : bool :=
  if String.prefix k s then true
  else match s with
       | EmptyString => false
       | String _ s' => is_infix k s'
       end.

(** [k in v]: key membership for a dict, element membership for a list,
    substring test for a string, [TypeError] for anything else. *)
Definition contains (k : string) (v : value) : result bool :=
  match v with
  | VDict d => Ok (mem k d)
  | VList l => Ok (existsb (eq_str k) l)
  | VStr s => Ok (is_infix k s)
  | _ => Raise TypeError
  end.

(** [v[k]] for a string subscript [k]: a dict gives the stored value or
    [KeyError]; lists and strings want integer subscripts and the remaining
    values are not subscriptable, both [TypeError]. *)
Definition getitem (v : value) (k : string) : result value :=
  match v with
  | VDict d =>
      match lookup k d with
      | Some x => Ok x
      | None => Raise KeyError
      end
  | _ => Raise TypeError
  end.

(** The values a [for] loop over [v] visits: the elements of a list, the keys
    of a dict, the one-character strings of a string. *)
Definition iter (v : value) : result (list value) :=
  match v with
  | VList l => Ok l
  | VDict d => Ok (map (fun kv => VStr (fst kv)) d)
  | VStr s => Ok (map (fun c => VStr (String c EmptyString)) (list_ascii_of_string s))
  | _ => Raise TypeError
  end.

(** Where the sources go through a string character by character ([strip],
    [lower]) a character stands for one code point below 256; text that is
    only concatenated and logged is kept as it is written in the source file.
    [str.isspace] holds below 256 for U+0009..U+000D, U+001C..U+0020, U+0085
    and U+00A0. *)
Definition is_space (c : ascii) : bool :=
  let n := nat_of_ascii c in
  (((9 <=? n) && (n <=? 13)) || ((28 <=? n) && (n <=? 32))
   || (n =? 133) || (n =? 160))%nat.

Fixpoint lstrip (s : string) : string :=
  match s with
  | EmptyString => EmptyString
  | String c s' => if is_space c then lstrip s' else s
  end.

Fixpoint rstrip (s : string) : string :=
  match s with
  | EmptyString => EmptyString
  | String c s' =>
      match rstrip s' with
      | EmptyString => if is_space c then EmptyString else String c EmptyString
      | r => String c r
      end
  end.

(** [s.strip()] *)
Definition strip (s : string) : string := rstrip (lstrip s).

(** [v.strip()]: only a string has the method. *)
Definition call_strip (v : value) : result string :=
  match v with
  | VStr s => Ok (strip s)
  | _ => Raise AttributeError
  end.

(** [v.get(k, default)]: only a dict has the method. *)
Definition call_get (v : value) (k : string) (default : value) : result value :=
  match v with
  | VDict d =>
      match lookup k d with
      | Some x => Ok x
      | None => Ok default
      end
  | _ => Raise AttributeError
  end.

(** [c.lower()] on one code point below 256: A..Z and the Latin-1 capitals
    U+00C0..U+00DE (U+00D7, the multiplication sign, apart) move up by 32. *)
Definition lower_char (c : ascii) : ascii :=
  let n := nat_of_ascii c in
  if (((65 <=? n) && (n <=? 90))
      || ((192 <=? n) && (n <=? 222) && negb (n =? 215)))%nat
  then ascii_of_nat (n + 32)
  else c.

(** [s.lower()] *)
Fixpoint lower (s : string) : string :=
  match s with
  | EmptyString => EmptyString
  | String c s' => String (lower_char c) (lower s')
  end.

(** Truth value of an optional string: [None] and [""] are false. *)
Definition truthy (o : option string) : bool :=
  match o with
  | Some (String _ _) => true
  | _ => false
  end.

(** [f"{o}"] for an optional string: [None] prints as the word None. *)
Definition fmt (o : option string) : string :=
  match o with
  | Some s => s
  | None => "None"
  end.

(** [s * n]: the string [s] repeated [n] times. *)
Fixpoint times (s : string) (n : nat) : string :=
  match n with
  | O => EmptyString
  | S n' => s ^^ times s n'
  end.

(** A formatted string is kept as the pieces of its f-string: literal text
    as it stands, and what the interpreter renders by name ([str] of a value,
    [json.dumps] of a value, an integer, a built-in exception). *)
Inductive piece : Type :=
| Lit (s : string)
| Str (v : value)
| Dump (v : value)
| Number (n : Z)
| Exc (e : exn).

Definition text : Type := list piece.

(** [f"{v}"]: a string is its own rendering. *)
Definition render (v : value) : piece :=
  match v with
  | VStr s => Lit s
  | _ => Str v
  end.

End Py.

Notation "x <- e ;; k" := (Py.bind e (fun x => k))
  (at level 61, e at next level, right associativity).

(** ** invocations/response_utils.py *)

Module ResponseUtils.
Import Py.

(** One [(part_type, part_content)] tuple. *)
Definition tagged : Type := string * value.

(** A [for] loop whose body updates the loop state or raises. *)
Fixpoint for_each {S A : Type} (body : S -> A -> result S) (xs : list A) (s : S)
  : result S :=
  match xs with
  | [] => Ok s
  | x :: xs' => s' <- body s x ;; for_each body xs' s'
  end.

(** The body of the inner loop, lines 27 to 42: one part is classified and
    its tuple appended to [response_parts]. *)
Definition process_part (response_parts : list tagged) (part : value)
  : result (list tagged) :=
  has_text <- contains "text" part ;;
  if has_text then
    text <- getitem part "text" ;;
    stripped <- call_strip text ;;
    Ok (response_parts ++ [("text", VStr stripped)])
  else
    has_call <- contains "function_call" part ;;
    if has_call then
      func_call <- getitem part "function_call" ;;
      name <- call_get func_call "name" (VStr "unknown") ;;
      args <- call_get func_call "args" (VDict []) ;;
      Ok (response_parts
            ++ [("function_call", VDict [("name", name); ("args", args)])])
    else
      Ok (response_parts ++ [("other", part)]).

(** The body of the outer loop, lines 23 to 42. *)
Definition process_event (response_parts : list tagged) (event : value)
  : result (list tagged) :=
  match event with
  | VDict ev =>
      if mem "content" ev then
        content <- getitem event "content" ;;
        has_parts <- contains "parts" content ;;
        if has_parts then
          parts <- getitem content "parts" ;;
          items <- iter parts ;;
          for_each process_part items response_parts
        else Ok response_parts
      else Ok response_parts
  | _ => Ok response_parts
  end.

(** [process_stream_response(stream_events)] on a stream that ends. *)
Definition process_stream_response (stream_events : list value)
  : result (list tagged) :=
  for_each process_event stream_events [].

(** The loop of [display_response_parts], lines 53 to 60: [out] is what has
    been printed so far; an exception leaves the lines printed before it. *)
Fixpoint display_loop (response_parts : list tagged) (out : list text)
  : list text * option exn :=
  match response_parts with
  | [] => (out, None)
  | (part_type, part_content) :: rest =>
      if String.eqb part_type "text" then
        display_loop rest (out ++ [[Lit "Response: "; render part_content]])
      else if String.eqb part_type "function_call" then
        match getitem part_content "name" with
        | Raise e => (out, Some e)
        | Ok name =>
            let out1 := out ++ [[Lit "Function Call: "; render name]] in
            match getitem part_content "args" with
            | Raise e => (out1, Some e)
            | Ok args =>
                display_loop rest (out1 ++ [[Lit "  Args: "; render args]])
            end
        end
      else
        display_loop rest (out ++ [[Lit "Other part: "; render part_content]])
  end.

(** [display_response_parts(response_parts)]: the lines printed and the
    exception raised, if any. *)
Definition display_response_parts (response_parts : list tagged)
  : list text * option exn :=
  match response_parts with
  | [] => ([[Lit "No response received"]], None)
  | _ :: _ => display_loop response_parts []
  end.

End ResponseUtils.

(** ** agents/adk_agent.py *)

Module AdkAgent.
Import Py.

Definition mock_weather_data : list (string * string) :=
  [ ("new york", "sunny with a temperature of 25 degrees Celsius (77 degrees Fahrenheit)");
    ("london", "cloudy with a temperature of 15 degrees Celsius (59 degrees Fahrenheit)");
    ("tokyo", "clear with a temperature of 28 degrees Celsius (82 degrees Fahrenheit)");
    ("paris", "rainy with a temperature of 18 degrees Celsius (64 degrees Fahrenheit)");
    ("sydney", "partly cloudy with a temperature of 22 degrees Celsius (72 degrees Fahrenheit)");
    ("los angeles", "sunny with a temperature of 26 degrees Celsius (79 degrees Fahrenheit)");
    ("chicago", "windy with a temperature of 20 degrees Celsius (68 degrees Fahrenheit)");
    ("singapore", "humid with a temperature of 30 degrees Celsius (86 degrees Fahrenheit)");
    ("dubai", "hot and sunny with a temperature of 35 degrees Celsius (95 degrees Fahrenheit)");
    ("hong kong", "warm with a temperature of 27 degrees Celsius (81 degrees Fahrenheit)") ].

Definition city_timezones : list (string * string) :=
  [ ("new york", "America/New_York");
    ("london", "Europe/London");
    ("tokyo", "Asia/Tokyo");
    ("paris", "Europe/Paris");
    ("sydney", "Australia/Sydney");
    ("los angeles", "America/Los_Angeles");
    ("chicago", "America/Chicago");
    ("singapore", "Asia/Singapore");
    ("dubai", "Asia/Dubai");
    ("hong kong", "Asia/Hong_Kong") ].

(** Lookup in a table of strings. *)
Fixpoint table_get (k : string) (t : list (string * string)) : option string :=
  match t with
  | [] => None
  | (k', v) :: t' => if String.eqb k k' then Some v else table_get k t'
  end.

(** [get_weather(city)] *)
Definition get_weather (city : string) : value :=
  let city_lower := lower city in
  match table_get city_lower mock_weather_data with
  | Some weather =>
      VDict [ ("status", VStr "success");
              ("report", VStr ("The weather in " ^^ city ^^ " is " ^^ weather ^^ ".")) ]
  | None =>
      VDict [ ("status", VStr "error");
              ("error_message",
               VStr ("Weather information for '" ^^ city ^^ "' is not available.")) ]
  end.

(** The wall clock as [get_current_time] reads it: [clock tz] is
    [datetime.datetime.now(ZoneInfo(tz)).strftime('%Y-%m-%d %H:%M:%S %Z%z')]
    at the moment of the call. *)
Definition clock : Type := string -> string.

(** [get_current_time(city)], called while the clock reads [now]. *)
Definition get_current_time (now : clock) (city : string) : value :=
  let city_lower := lower city in
  match table_get city_lower city_timezones with
  | Some tz_identifier =>
      let report := "The current time in " ^^ city ^^ " is " ^^ now tz_identifier in
      VDict [ ("status", VStr "success"); ("report", VStr report) ]
  | None =>
      VDict [ ("status", VStr "error");
              ("error_message",
               VStr ("Sorry, I don't have timezone information for " ^^ city ^^ ".")) ]
  end.

(** The entries of [tools=[get_weather, get_current_time]] of [root_agent]. *)
Inductive tool : Type :=
| GetWeather
| GetCurrentTime.

(** One call of a tool with the argument [city], while the clock reads [now]. *)
Definition call_tool (now : clock) (t : tool) (city : string) : value :=
  match t with
  | GetWeather => get_weather city
  | GetCurrentTime => get_current_time now city
  end.

End AdkAgent.

(** ** Process environment *)

(** The six variables the scripts read with [os.getenv]: unset is [None]. *)
Record environ : Type := {
  PROJECT_ID : option string;
  PROJECT_NUMBER : option string;
  LOCATION : option string;
  STAGING_BUCKET : option string;
  APP_ID : option string;
  ADK_DEPLOYMENT_ID : option string
}.

(** ** invocations/invoke_adk_agent_deployed.py *)

Module InvokeDeployed.
Import Py.

(** What the [__main__] block ends in: [exit(code)] after printing [stdout],
    or the call [test_deployed_agent(agent_resource_name)]. *)
Inductive action : Type :=
| Exit (code : Z) (stdout : list string)
| TestDeployedAgent (agent_resource_name : string).

(** Lines 86 to 88. *)
Definition default_resource_name (env : environ) : option string :=
  if truthy (PROJECT_ID env) && truthy (LOCATION env)
     && truthy (ADK_DEPLOYMENT_ID env)
  then Some ("projects/" ^^ fmt (PROJECT_ID env) ^^ "/locations/"
             ^^ fmt (LOCATION env) ^^ "/reasoningEngines/"
             ^^ fmt (ADK_DEPLOYMENT_ID env))
  else None.

(** [args.id] after [parse_args]: the value given to [--id], else the
    default of the argument. *)
Definition parse_id (flag : option string) (default : option string)
  : option string :=
  match flag with
  | Some v => Some v
  | None => default
  end.

(** The [__main__] block, lines 80 to 103; [flag] is the value given to
    [--id] on the command line, if the flag is there. *)
Definition main (env : environ) (flag : option string) : action :=
  let id := parse_id flag (default_resource_name env) in
  if negb (truthy id) then
    Exit 1 [ "Error: No agent resource ID provided.";
             "Either provide --id argument or ensure ADK_DEPLOYMENT_ID is set in .env file" ]
  else TestDeployedAgent (fmt id).

End InvokeDeployed.

(** ** Logging *)

Inductive level : Type :=
| INFO
| WARNING
| ERROR.

(** One record handed to [logger]: its level and its message. *)
Definition record : Type := level * Py.text.

Definition info (s : string) : record := (INFO, [Py.Lit s]).
Definition warning (s : string) : record := (WARNING, [Py.Lit s]).
Definition error (s : string) : record := (ERROR, [Py.Lit s]).

Definition is_error (r : record) : bool :=
  match fst r with
  | ERROR => true
  | _ => false
  end.

(** ** deployments/deploy_to_agentspace.py *)

Module DeployToAgentspace.
Import Py.

(** How [subprocess.run(["gcloud", "auth", "print-access-token"], ...,
    check=True)] ends: with the captured standard output, with
    [CalledProcessError] (rendered as [e]) or with [FileNotFoundError]. *)
Inductive gcloud_run : Type :=
| Completed (stdout : string)
| CalledProcessError (e : string)
| FileNotFoundError.

(** How the Application Default Credentials block ends: with
    [credentials.token] after the refresh, or with an exception rendered
    as [e]. *)
Inductive adc_run : Type :=
| Refreshed (token : option string)
| AdcRaised (e : string).

(** The exception classes the handlers of [deploy_to_agentspace] tell apart:
    [requests.exceptions.Timeout], any other [RequestException], any
    other [Exception]. *)
Inductive exc_class : Type :=
| Timeout
| RequestException
| OtherException.

(** An exception reaching the handlers: raised by the HTTP library, with its
    class and text, or by a built-in operation of the function body. *)
Inductive raised : Type :=
| External (c : exc_class) (e : string)
| Builtin (e : exn).

(** [response.json()]: the decoded body, or the exception it raises. *)
Inductive decoded : Type :=
| Json (v : value)
| JsonRaised (c : exc_class) (e : string).

Record response : Type := {
  status_code : Z;
  body : string;
  json : decoded
}.

(** The arguments of [requests.post]. *)
Record request : Type := {
  endpoint : string;
  headers : list (string * option string);
  payload : value;
  timeout : Z
}.

(** How [requests.post] ends. *)
Inductive post_run : Type :=
| Responded (r : response)
| PostRaised (c : exc_class) (e : string).

(** Everything outside the process that the script talks to. *)
Record world : Type := {
  gcloud : gcloud_run;
  adc : adc_run;
  post : request -> post_run
}.

(** Lines 58 to 73 of [get_access_token]: the fallback. *)
Definition access_token_adc (w : world) : list record * option string :=
  match adc w with
  | Refreshed token =>
      if truthy token
      then ([info "Successfully obtained access token via ADC"], token)
      else ([], None)
  | AdcRaised e =>
      ([(ERROR, [Lit "Failed to get access token via ADC: "; Lit e])], None)
  end.

(** [get_access_token()]: the records logged and the token returned. *)
Definition get_access_token (w : world) : list record * option string :=
  match gcloud w with
  | Completed stdout =>
      let token := strip stdout in
      if truthy (Some token)
      then ([info "Successfully obtained access token"], Some token)
      else access_token_adc w
  | CalledProcessError e =>
      let (log, token) := access_token_adc w in
      ((ERROR, [Lit "Failed to get access token via gcloud: "; Lit e]) :: log,
       token)
  | FileNotFoundError =>
      let (log, token) := access_token_adc w in
      (error "gcloud CLI not found. Please install Google Cloud SDK." :: log,
       token)
  end.

(** The [except] clauses of lines 188 to 196. *)
Definition handle (x : raised) : list record * bool :=
  match x with
  | External Timeout _ =>
      ([error "Request timed out. The deployment might still be in progress."],
       false)
  | External RequestException e =>
      ([(ERROR, [Lit "Request failed: "; Lit e])], false)
  | External OtherException e =>
      ([(ERROR, [Lit "Unexpected error: "; Lit e])], false)
  | Builtin e =>
      ([(ERROR, [Lit "Unexpected error: "; Exc e])], false)
  end.

(** Lines 172 to 184: the guidance logged for a status code. *)
Definition guidance (code : Z) (project_id app_id : option string)
  : list record :=
  if (code =? 404)%Z then
    [ error "The app or endpoint was not found. Please check:";
      error ("- App ID is correct: " ^^ fmt app_id);
      error ("- The app exists in project: " ^^ fmt project_id);
      error "- The app is in the EU location" ]
  else if (code =? 403)%Z then
    [ error "Permission denied. Please check:";
      error "- You have the necessary IAM roles (Discovery Engine Admin)";
      error "- The project has the Discovery Engine API enabled" ]
  else if (code =? 400)%Z then
    [ error "Bad request. Please check:";
      error "- The ADK deployment exists and is accessible";
      error "- The payload format is correct" ]
  else [].

(** Lines 157 to 166: the branch taken on status 200 or 201. *)
Definition on_success (r : response) : list record * bool :=
  let log1 := [info "✓ Successfully deployed agent to Agentspace!"] in
  match json r with
  | JsonRaised c e =>
      let (log, ret) := handle (External c e) in (log1 ++ log, ret)
  | Json agent_data =>
      let log2 := log1 ++ [(INFO, [Lit "Response: "; Dump agent_data])] in
      match contains "name" agent_data with
      | Raise e => let (log, ret) := handle (Builtin e) in (log2 ++ log, ret)
      | Ok false => (log2, true)
      | Ok true =>
          match getitem agent_data "name" with
          | Raise e =>
              let (log, ret) := handle (Builtin e) in (log2 ++ log, ret)
          | Ok name =>
              (log2 ++ [(INFO, [Lit "Agent resource name: "; render name])],
               true)
          end
      end
  end.

(** Lines 167 to 186: the branch taken on any other status. *)
Definition on_failure (r : response) (project_id app_id : option string)
  : list record * bool :=
  ([ (ERROR, [Lit "✗ Deployment failed with status code: ";
              Number (status_code r)]);
     (ERROR, [Lit "Response: "; Lit (body r)]) ]
   ++ guidance (status_code r) project_id app_id,
   false).

(** Lines 99 to 137: the request that is sent. *)
Definition build_request (access_token : string)
    (project_id app_id adk_deployment_id adk_location : option string)
  : request :=
  let base_url := "https://eu-discoveryengine.googleapis.com" in
  {| endpoint :=
       base_url ^^ "/v1alpha/projects/" ^^ fmt project_id ^^ "/locations/eu/"
       ^^ "collections/default_collection/engines/" ^^ fmt app_id ^^ "/"
       ^^ "assistants/default_assistant/agents";
     headers :=
       [ ("Authorization", Some ("Bearer " ^^ access_token));
         ("Content-Type", Some "application/json");
         ("X-Goog-User-Project", project_id) ];
     payload :=
       VDict
         [ ("displayName", VStr "Weather Time Agent");
           ("description",
            VStr "An ADK agent that provides weather and time information for major cities");
           ("icon",
            VDict [ ("uri", VStr "https://fonts.gstatic.com/s/i/materialicons/wb_sunny/v1/24px.svg") ]);
           ("adk_agent_definition",
            VDict
              [ ("tool_settings",
                 VDict
                   [ ("tool_description",
                      VStr ("This agent provides weather and time information for 10 major cities: "
                            ^^ "New York, London, Tokyo, Paris, Sydney, Los Angeles, Chicago, Singapore, "
                            ^^ "Dubai, and Hong Kong")) ]);
                ("provisioned_reasoning_engine",
                 VDict
                   [ ("reasoning_engine",
                      VStr ("projects/" ^^ fmt project_id ^^ "/locations/"
                            ^^ fmt adk_location ^^ "/"
                            ^^ "reasoningEngines/" ^^ fmt adk_deployment_id)) ]) ]) ];
     timeout := 60 |}.

(** [deploy_to_agentspace(project_id, app_id, adk_deployment_id,
    adk_location)]: the records logged and the value returned.  The
    arguments are optional strings because [main] passes what [os.getenv]
    gave. *)
Definition deploy_to_agentspace (w : world)
    (project_id app_id adk_deployment_id adk_location : option string)
  : list record * bool :=
  let (log0, access_token) := get_access_token w in
  if negb (truthy access_token) then
    (log0 ++ [error "Unable to obtain access token. Cannot proceed with deployment."],
     false)
  else
    let req := build_request (fmt access_token)
                 project_id app_id adk_deployment_id adk_location in
    let log1 :=
      log0 ++
      [ info "Deploying agent to Agentspace...";
        info ("Project ID: " ^^ fmt project_id);
        info ("App ID: " ^^ fmt app_id);
        info ("ADK Deployment ID: " ^^ fmt adk_deployment_id);
        info ("ADK Location: " ^^ fmt adk_location);
        info ("Endpoint: " ^^ endpoint req) ] in
    match post w req with
    | PostRaised c e => let (log, ret) := handle (External c e) in (log1 ++ log, ret)
    | Responded r =>
        let (log, ret) :=
          if ((status_code r =? 200) || (status_code r =? 201))%Z
          then on_success r
          else on_failure r project_id app_id in
        (log1 ++ log, ret)
    end.

(** [main()]: the records logged and the exit status of the process. *)
Definition main (env : environ) (w : world) : list record * Z :=
  let log0 :=
    [ info "Starting Agentspace deployment...";
      info (times "=" 60);
      info "Configuration:";
      info ("  PROJECT_ID: " ^^ fmt (PROJECT_ID env));
      info ("  APP_ID: " ^^ fmt (APP_ID env));
      info ("  ADK_DEPLOYMENT_ID: " ^^ fmt (ADK_DEPLOYMENT_ID env));
      info ("  ADK_LOCATION: " ^^ fmt (LOCATION env));
      info (times "=" 60) ] in
  let (log1, success) :=
    deploy_to_agentspace w (PROJECT_ID env) (APP_ID env)
      (ADK_DEPLOYMENT_ID env) (LOCATION env) in
  if success then
    (log0 ++ log1 ++
     [ info (String "010" "✓ Deployment completed successfully!");
       info (String "010" "Next steps:");
       info "1. Go to the Agentspace console to verify the deployment";
       info ("2. Test the agent at: https://console.cloud.google.com/gen-app-builder/locations/eu/engines/"
             ^^ fmt (APP_ID env));
       info "3. Configure any additional settings as needed" ],
     0%Z)
  else
    (log0 ++ log1 ++
     [ error (String "010" "✗ Deployment failed. Please check the errors above.") ],
     1%Z).

End DeployToAgentspace.

(** ** deployments/deploy_adk_agent.py *)

Module DeployAdkAgent.
Import Py.

(** How [subprocess.run(["uv", "export", ...], check=True)] ends: with the
    lines of the captured output ([result.stdout.splitlines()]), with
    [CalledProcessError] (its rendering and its [stderr]), or with another
    exception, which [generate_requirements] lets through. *)
Inductive uv_run : Type :=
| Exported (stdout_lines : list string)
| UvCalledProcessError (e : string) (stderr : string)
| UvRaised (e : string).

(** How the iteration over [remote_app.stream_query(...)] ends: the events
    received, and the exception that cut the stream short, if any. *)
Record stream : Type := {
  events : list value;
  failure : option string
}.

(** The deployed application as the test block uses it. *)
Record remote_app : Type := {
  resource_name : string;
  create_session : string + value;
  stream_query : value -> stream
}.

(** The keyword arguments of [agent_engines.create] that vary. *)
Record create_request : Type := {
  requirements : list string;
  display_name : string;
  description : string;
  extra_packages : list string;
  env_vars : list (string * option string)
}.

Record world : Type := {
  uv_export : uv_run;
  create : create_request -> string + remote_app
}.

(** [generate_requirements()]: the records logged, and the list returned or
    the text of the exception let through. *)
Definition generate_requirements (w : world)
  : list record * (string + list string) :=
  let log0 := [info "Generating requirements using uv export..."] in
  match uv_export w with
  | Exported stdout_lines =>
      let requirements :=
        map strip
          (filter (fun line => truthy (Some (strip line))) stdout_lines) in
      (log0 ++ [(INFO, [Lit "Generated ";
                        Number (Z.of_nat (length requirements));
                        Lit " requirements"])],
       inr requirements)
  | UvCalledProcessError e stderr =>
      (log0 ++
       [ (ERROR, [Lit "Failed to generate requirements: "; Lit e]);
         (ERROR, [Lit "Error output: "; Lit stderr]);
         warning "Falling back to essential requirements..." ],
       inr [ "google-cloud-aiplatform[adk,agent_engines]==1.95.1";
             "google-adk==1.4.2";
             "vertexai>=1.43.0";
             "cloudpickle==3.1.1";
             "pydantic==2.11.3";
             "pytz>=2024.1" ])
  | UvRaised e => (log0, inl e)
  end.

(** [s.split("/")[-1]]: what follows the last slash. *)
Fixpoint last_segment (s : string) : string :=
  match s with
  | EmptyString => EmptyString
  | String c s' =>
      if is_infix "/" s' then last_segment s'
      else if Ascii.eqb c "/" then s'
      else s
  end.

(** Lines 142 to 164 of [deploy_agent]: the test of the deployed agent. *)
Definition test_deployed (app : remote_app) : list record :=
  let failed (e : piece) :=
    [ (WARNING, [Lit "Test query failed: "; e]);
      info "Agent deployed but test failed - you may need to check permissions" ] in
  match create_session app with
  | inl e => failed (Lit e)
  | inr test_session =>
      match getitem test_session "id" with
      | Raise e => failed (Exc e)
      | Ok id =>
          let log1 := [(INFO, [Lit "Created test session: "; render id])] in
          let s := stream_query app id in
          match failure s with
          | Some e => log1 ++ failed (Lit e)
          | None =>
              match events s with
              | _ :: _ => log1 ++ [info "Test query successful!"]
              | [] => log1 ++ [warning "Test query returned no response"]
              end
          end
      end
  end.

(** The handler of lines 168 to 171. *)
Definition deployment_failed (e : string) : list record :=
  [ (ERROR, [Lit "Deployment failed: "; Lit e]);
    error "Please check your permissions and configuration" ].

(** [deploy_agent()]: the records logged and the resource name returned. *)
Definition deploy_agent (env : environ) (w : world)
  : list record * option string :=
  let log0 := [info "Creating deployment package..."] in
  let (log1, generated) := generate_requirements w in
  match generated with
  | inl e => (log0 ++ log1 ++ deployment_failed e, None)
  | inr requirements =>
      let log2 :=
        log0 ++ log1 ++
        [ info "Deploying agent to Agent Engine...";
          info "This may take several minutes..." ] in
      match create w {| requirements := requirements;
                         display_name := "Weather Time Agent";
                         description := "An ADK agent that provides weather and time information";
                         extra_packages := ["./agentspace_demo_agent"];
                         env_vars := [ ("PROJECT_ID", PROJECT_ID env);
                                       ("LOCATION", LOCATION env) ] |} with
      | inl e => (log2 ++ deployment_failed e, None)
      | inr app =>
          (log2 ++
           [ info "Successfully deployed agent!";
             info ("Resource name: " ^^ resource_name app);
             info ("Resource ID: " ^^ last_segment (resource_name app));
             info "Testing deployed agent..." ]
           ++ test_deployed app,
           Some (resource_name app))
      end
  end.

(** [main()]: the records logged and the exit status of the process. *)
Definition main (env : environ) (w : world) : list record * Z :=
  let log0 := [info "Starting agent deployment..."] in
  let (log1, resource_name) := deploy_agent env w in
  if truthy resource_name then
    (log0 ++ log1 ++
     [ info (String "010" "Deployment successful!");
       info ("Your agent is now available at: " ^^ fmt resource_name);
       info (String "010" "To use the deployed agent:");
       info "1. Note the resource name above";
       info "2. Use the agent_engines.get() API to access it";
       info "3. Create sessions and send queries" ],
     0%Z)
  else (log0 ++ log1, 1%Z).

End DeployAdkAgent.

(** ** Vocabulary of the specification *)

Module Spec.
Import Py ResponseUtils.

(** A field of a record-shaped value; a value that is no dict has none. *)
Definition field (k : string) (v : value) : option value :=
  match v with
  | VDict d => lookup k d
  | _ => None
  end.

Definition or_default (o : option value) (default : value) : value :=
  match o with
  | Some v => v
  | None => default
  end.

(** The parts of one event: those of [content.parts] when the event is a
    record with a [content] record that has a [parts] field, none otherwise. *)
Definition event_parts (event : value) : list value :=
  match event with
  | VDict ev =>
      match lookup "content" ev with
      | Some (VDict content) =>
          match lookup "parts" content with
          | Some parts =>
              match iter parts with
              | Ok items => items
              | Raise _ => []
              end
          | None => []
          end
      | _ => []
      end
  | _ => []
  end.

(** All parts of a stream, in the order they are met. *)
Definition stream_parts (stream_events : list value) : list value :=
  concat (map event_parts stream_events).

Definition all_space (s : string) : Prop :=
  Forall (fun c => is_space c = true) (list_ascii_of_string s).

Definition first_char (s : string) : option ascii :=
  match s with
  | EmptyString => None
  | String c _ => Some c
  end.

Fixpoint last_char (s : string) : option ascii :=
  match s with
  | EmptyString => None
  | String c EmptyString => Some c
  | String _ s' => last_char s'
  end.

(** [t] is [s] trimmed of surrounding whitespace: [s] is [t] between two
    runs of whitespace, and [t] neither starts nor ends with whitespace. *)
Definition trimmed (s t : string) : Prop :=
  (exists pre post, s = pre ^^ t ^^ post /\ all_space pre /\ all_space post)
  /\ (forall c, first_char t = Some c -> is_space c = false)
  /\ (forall c, last_char t = Some c -> is_space c = false).

(** The tagged tuple the contract gives for a part. *)
Inductive classified : value -> tagged -> Prop :=
| classified_text d s t :
    lookup "text" d = Some (VStr s) ->
    trimmed s t ->
    classified (VDict d) ("text", VStr t)
| classified_call d func_call :
    lookup "text" d = None ->
    lookup "function_call" d = Some (VDict func_call) ->
    classified (VDict d)
      ("function_call",
       VDict [ ("name", or_default (lookup "name" func_call) (VStr "unknown"));
               ("args", or_default (lookup "args" func_call) (VDict [])) ])
| classified_other part :
    contains "text" part = Ok false ->
    contains "function_call" part = Ok false ->
    classified part ("other", part).

(** Processed on its own, [part] gives the one tuple [t], which is the one
    of the contract. *)
Definition yields (part : value) (t : tagged) : Prop :=
  process_part [] part = Ok [t] /\ classified part t.

(** An event without a [content] field, or whose content has no [parts]
    field. *)
Inductive lacks_parts : value -> Prop :=
| lacks_content ev :
    lookup "content" ev = None -> lacks_parts (VDict ev)
| lacks_content_parts ev content :
    lookup "content" ev = Some (VDict content) ->
    lookup "parts" content = None ->
    lacks_parts (VDict ev).

(** A part of the data model: a record whose [text], when there, is a string
    and whose [function_call], when it is the field that decides, is a
    record. *)
Definition well_formed_part (part : value) : bool :=
  match part with
  | VDict d =>
      match lookup "text" d with
      | Some (VStr _) => true
      | Some _ => false
      | None =>
          match lookup "function_call" d with
          | Some (VDict _) => true
          | Some _ => false
          | None => true
          end
      end
  | _ => false
  end.

(** An event of the data model: anything that is no record, or a record
    whose [content], when there, is a record whose [parts], when there, is a
    list of well-formed parts. *)
Definition well_formed_event (event : value) : bool :=
  match event with
  | VDict ev =>
      match lookup "content" ev with
      | None => true
      | Some (VDict content) =>
          match lookup "parts" content with
          | None => true
          | Some (VList parts) => forallb well_formed_part parts
          | Some _ => false
          end
      | Some _ => false
      end
  | _ => true
  end.

(** A tuple as [process_stream_response] builds them. *)
Definition shaped (t : tagged) : Prop :=
  (fst t = "text" /\ exists s, snd t = VStr s)
  \/ (fst t = "function_call"
      /\ exists name args, snd t = VDict [("name", name); ("args", args)])
  \/ fst t = "other".

(** The ten cities of the weather table. *)
Definition supported_cities : list string :=
  [ "new york"; "london"; "tokyo"; "paris"; "sydney"; "los angeles";
    "chicago"; "singapore"; "dubai"; "hong kong" ].


End Spec.

(** ** Concrete runs *)

Module Scenario.
Import Py.

(** Two readings of the clock, one second apart. *)
Definition midnight : AdkAgent.clock :=
  fun _ => "2025-01-01 00:00:00 UTC+0000".

Definition one_second_later : AdkAgent.clock :=
  fun _ => "2025-01-01 00:00:01 UTC+0000".

(** An environment with every variable set. *)
Definition full_env : environ :=
  {| PROJECT_ID := Some "demo-project";
     PROJECT_NUMBER := Some "1234567890";
     LOCATION := Some "europe-west1";
     STAGING_BUCKET := Some "gs://demo-bucket";
     APP_ID := Some "demo-app";
     ADK_DEPLOYMENT_ID := Some "4242" |}.


(** The same without [ADK_DEPLOYMENT_ID]. *)
Definition env_without_deployment_id : environ :=
  {| PROJECT_ID := Some "demo-project";
     PROJECT_NUMBER := Some "1234567890";
     LOCATION := Some "europe-west1";
     STAGING_BUCKET := Some "gs://demo-bucket";
     APP_ID := Some "demo-app";
     ADK_DEPLOYMENT_ID := None |}.

(** The endpoint answers 200 with a body that is not JSON. *)
Definition ok_without_json : DeployToAgentspace.world :=
  {| DeployToAgentspace.gcloud :=
       DeployToAgentspace.Completed (String "y" (String "a" (String "010" EmptyString)));
     DeployToAgentspace.adc := DeployToAgentspace.Refreshed None;
     DeployToAgentspace.post := fun _ =>
       DeployToAgentspace.Responded
         {| DeployToAgentspace.status_code := 200;
            DeployToAgentspace.body := "";
            DeployToAgentspace.json :=
              DeployToAgentspace.JsonRaised DeployToAgentspace.RequestException
                "Expecting value: line 1 column 1 (char 0)" |} |}.

(** The endpoint answers with the status [code] and an empty JSON object. *)
Definition answering (code : Z) : DeployToAgentspace.world :=
  {| DeployToAgentspace.gcloud :=
       DeployToAgentspace.Completed (String "y" (String "a" (String "010" EmptyString)));
     DeployToAgentspace.adc := DeployToAgentspace.Refreshed None;
     DeployToAgentspace.post := fun _ =>
       DeployToAgentspace.Responded
         {| DeployToAgentspace.status_code := code;
            DeployToAgentspace.body := "{}";
            DeployToAgentspace.json := DeployToAgentspace.Json (VDict []) |} |}.

(** Agent Engine accepts the deployment and answers the test query. *)
Definition engine_up : DeployAdkAgent.world :=
  {| DeployAdkAgent.uv_export :=
       DeployAdkAgent.Exported ["google-adk==1.4.2"; ""];
     DeployAdkAgent.create := fun _ =>
       inr {| DeployAdkAgent.resource_name :=
                "projects/1234567890/locations/europe-west1/reasoningEngines/4242";
              DeployAdkAgent.create_session := inr (VDict [("id", VStr "s1")]);
              DeployAdkAgent.stream_query := fun _ =>
                {| DeployAdkAgent.events := [VDict [("content", VDict [])]];
                   DeployAdkAgent.failure := None |} |} |}.

End Scenario.

(** ** invocations: the test loops of the two invocation scripts *)

Module Invocations.
Import Py ResponseUtils.

(** What iterating a streamed query gives: the events it yields and, when the
    stream is cut short, the rendering of the exception raised after them.  A
    call of [stream_query] that raises at once is the stream without events
    that fails. *)
Record stream : Type := {
  events : list value;
  failure : option string
}.

(** An exception caught by [except Exception as e] around one query: raised
    by a built-in operation of the normaliser or the display routine, or by
    the stream. *)
Inductive caught : Type :=
| FromBuiltin (e : exn)
| FromStream (e : string).

(** [process_stream_response(stream_events)] on a stream that may fail: the
    loop body runs on every event yielded; an exception of the body comes
    before one the stream raises after its last event. *)
Definition process_stream (s : stream) : caught + list tagged :=
  match process_stream_response (events s) with
  | Raise e => inl (FromBuiltin e)
  | Ok response_parts =>
      match failure s with
      | Some e => inl (FromStream e)
      | None => inr response_parts
      end
  end.

(** [test_queries], the same list in both scripts. *)
Definition test_queries : list string :=
  [ "What's the weather in London?";
    "What time is it in Tokyo?";
    "Tell me about the weather in Paris";
    "What's the current time in Dubai?";
    "Give me weather for Singapore and time for Hong Kong" ].

(** The [try] block of the loop and its handler: what one query prints. *)
Definition run_query (s : stream) : list text :=
  match process_stream s with
  | inr response_parts =>
      match display_response_parts response_parts with
      | (out, None) => out
      | (out, Some e) => out ++ [[Lit "Error: "; Exc e]]
      end
  | inl (FromBuiltin e) => [[Lit "Error: "; Exc e]]
  | inl (FromStream e) => [[Lit "Error: "; Lit e]]
  end.

(** The two lines printed before a query is sent. *)
Definition query_header (i : nat) (query : string) : list text :=
  [ [Lit (String "010" "Test "); Number (Z.of_nat i); Lit (": " ^^ query)];
    [Lit (times "-" 60)] ].

(** [for i, query in enumerate(queries, i): ...]: what the loop prints when
    [stream_of query] is the stream the platform gives for [query]. *)
Fixpoint query_loop (stream_of : string -> stream) (queries : list string)
    (i : nat) : list text :=
  match queries with
  | [] => []
  | query :: rest =>
      query_header i query ++ run_query (stream_of query)
      ++ query_loop stream_of rest (S i)
  end.

(** The deployed agent as [test_deployed_agent] uses it. *)
Record agent : Type := {
  create_session : string + value;
  stream_query : value -> string -> stream
}.

(** The platform as [test_deployed_agent] meets it: [init] is the exception
    [vertexai.init] raises, if it does. *)
Record world : Type := {
  init : option string;
  get : string -> string + agent
}.

(** The handler of lines 58 to 60. *)
Definition connection_error (e : piece) : list text :=
  [[Lit "✗ Error connecting to deployed agent: "; e]].

(** [test_deployed_agent(agent_resource_name)]: the lines printed and the
    exception that leaves the function, if any. *)
Definition test_deployed_agent (w : world) (agent_resource_name : string)
  : list text * option string :=
  let out0 :=
    [ [Lit "Testing ADK Agent on Agent Engine..."];
      [Lit (times "=" 60)];
      [Lit ("Agent Resource: " ^^ agent_resource_name)];
      [Lit (times "=" 60)] ] in
  match init w with
  | Some e => (out0, Some e)
  | None =>
      match get w agent_resource_name with
      | inl e => (out0 ++ connection_error (Lit e), None)
      | inr a =>
          let out1 := out0 ++ [[Lit "✓ Successfully connected to deployed agent"]] in
          match create_session a with
          | inl e => (out1 ++ connection_error (Lit e), None)
          | inr session =>
              match getitem session "id" with
              | Raise e => (out1 ++ connection_error (Exc e), None)
              | Ok id =>
                  (out1 ++ [[Lit "✓ Session created: "; render id]]
                   ++ query_loop (stream_query a id) test_queries 1
                   ++ [ [Lit (String "010" (times "=" 60))];
                        [Lit "Deployed agent testing completed!"] ],
                   None)
              end
          end
      end
  end.

(** The local application as [test_agent] uses it: [local_session] is the
    [id] of the session [create_session] returns, or the exception it
    raises. *)
Record local_app : Type := {
  local_session : string + value;
  local_stream_query : value -> string -> stream
}.

(** [test_agent()] of [invoke_adk_agent_local.py]; [app] is what the
    constructor [AdkApp(...)] gives.  Neither the constructor nor
    [create_session] stands in a [try]. *)
Definition test_agent (app : string + local_app) : list text * option string :=
  let out0 :=
    [ [Lit "Testing ADK Agent locally..."];
      [Lit (times "=" 60)] ] in
  match app with
  | inl e => (out0, Some e)
  | inr a =>
      match local_session a with
      | inl e => (out0, Some e)
      | inr id =>
          (out0
           ++ query_loop (local_stream_query a id) test_queries 1
           ++ [ [Lit (String "010" (times "=" 60))];
                [Lit "Local invocation with vertexai reasoning engine completed!"] ],
           None)
      end
  end.

End Invocations.

(** ** agents/adk_agent.py: the demo loop of [main] *)

Module AdkDemo.
Import Py.

(** [part.function_call] and [part.function_response] as the loop reads
    them: the two attributes it copies. *)
Record call : Type := {
  call_name : value;
  call_args : value
}.

Record response : Type := {
  response_name : value;
  response_value : value
}.

(** A part of an event of the runner: each attribute is there or [None]. *)
Record part : Type := {
  text : option string;
  function_call : option call;
  function_response : option response
}.

(** [event.content]: [None], or a content whose [parts] is a list or
    [None]. *)
Record event : Type := {
  content : option (option (list part))
}.

(** What is written to the console: [print(s)], or [print(s, end=" ")]. *)
Inductive write : Type :=
| Line (t : Py.text)
| Chunk (s : string).

(** The variables the streaming loop updates. *)
Record state : Type := {
  out : list write;
  response_text : string;
  function_calls : list call;
  function_responses : list response
}.

(** Lines 180 to 198: one part. *)
Definition consume_part (st : state) (p : part) : state :=
  if truthy (text p) then
    let text_chunk := strip (fmt (text p)) in
    if truthy (Some text_chunk) then
      {| out := out st ++ [Chunk text_chunk];
         response_text := response_text st ^^ text_chunk ^^ " ";
         function_calls := function_calls st;
         function_responses := function_responses st |}
    else st
  else
    match function_call p with
    | Some c =>
        {| out := out st
                  ++ [Line [Lit (String "010" "[Calling "); render (call_name c);
                            Lit "...]"]];
           response_text := response_text st;
           function_calls := function_calls st ++ [c];
           function_responses := function_responses st |}
    | None =>
        match function_response p with
        | Some r =>
            {| out := out st
                      ++ [Line [Lit "["; render (response_name r);
                                Lit " completed]"]];
               response_text := response_text st;
               function_calls := function_calls st;
               function_responses := function_responses st ++ [r] |}
        | None => st
        end
    end.

(** Lines 178 to 198: one event.  Iterating over [parts] that is [None]
    raises [TypeError]. *)
Definition consume_event (st : state) (e : event) : result state :=
  match content e with
  | None => Ok st
  | Some None => Raise TypeError
  | Some (Some parts) => Ok (fold_left consume_part parts st)
  end.

(** Lines 177 to 198: the loop over the events of one query. *)
Definition consume_events (events : list event) (st : state) : result state :=
  ResponseUtils.for_each consume_event events st.

(** The state before the first event of a query. *)
Definition initial : state :=
  {| out := []; response_text := ""; function_calls := [];
     function_responses := [] |}.

(** Lines 200 to 216: the summary printed after the events of one query. *)
Definition summary (st : state) : list write :=
  [Line [Lit (String "010" (String "010" (times "-" 50)))]]
  ++ match function_calls st with
     | [] => []
     | _ :: _ =>
         Line [Lit (String "010" "Function calls summary:")]
         :: map (fun fc => Line [Lit "  - "; render (call_name fc); Lit ": ";
                                 render (call_args fc)])
                (function_calls st)
     end
  ++ match function_responses st with
     | [] => []
     | _ :: _ =>
         Line [Lit (String "010" "Function responses summary:")]
         :: map (fun fr => Line [Lit "  - "; render (response_name fr); Lit ": ";
                                 render (response_value fr)])
                (function_responses st)
     end
  ++ (if truthy (Some (strip (response_text st))) then []
      else [Line [Lit (String "010" "No text response received")]])
  ++ [Line [Lit (String "010" (times "=" 50))]].

End AdkDemo.

(** ** More vocabulary *)

Module Reading.
Import Py ResponseUtils.

Definition is_dict (v : value) : bool :=
  match v with
  | VDict _ => true
  | _ => false
  end.

(** The lines [display_response_parts] prints for one tuple. *)
Definition lines_for (t : tagged) : nat :=
  if String.eqb (fst t) "function_call" then 2 else 1.

(** The value under a path of keys in nested dicts. *)
Fixpoint deep_field (path : list string) (v : value) : option value :=
  match path with
  | [] => Some v
  | k :: path' =>
      match v with
      | VDict d =>
          match lookup k d with
          | Some x => deep_field path' x
          | None => None
          end
      | _ => None
      end
  end.

(** A string without a slash. *)
Definition no_slash (s : string) : Prop := is_infix "/" s = false.

(** The last character of a string is a slash. *)
Definition ends_with_slash (s : string) : Prop :=
  Spec.last_char s = Some "/"%char.

(** [gcloud] gave no usable token: it failed, or printed only whitespace. *)
Definition gcloud_gave_nothing (g : DeployToAgentspace.gcloud_run) : Prop :=
  match g with
  | DeployToAgentspace.Completed stdout => strip stdout = ""
  | _ => True
  end.

(** The parts the demo loop goes through, event after event. *)
Definition demo_parts (events : list AdkDemo.event) : list AdkDemo.part :=
  flat_map (fun e => match AdkDemo.content e with
                     | Some (Some parts) => parts
                     | _ => []
                     end) events.

(** The text chunks of a run of parts: the trimmed text of every part whose
    text is not blank. *)
Definition chunks (parts : list AdkDemo.part) : list string :=
  flat_map (fun p => match AdkDemo.text p with
                     | Some t => match strip t with
                                 | EmptyString => []
                                 | c => [c]
                                 end
                     | None => []
                     end) parts.

(** The chunks, each followed by one space. *)
Fixpoint joined (cs : list string) : string :=
  match cs with
  | [] => ""
  | c :: cs' => c ^^ " " ^^ joined cs'
  end.

(** The function calls of the parts that have no text. *)
Definition calls (parts : list AdkDemo.part) : list AdkDemo.call :=
  flat_map (fun p => if truthy (AdkDemo.text p) then []
                     else match AdkDemo.function_call p with
                          | Some c => [c]
                          | None => []
                          end) parts.

(** The function responses of the parts that have neither text nor call. *)
Definition responses (parts : list AdkDemo.part) : list AdkDemo.response :=
  flat_map (fun p => if truthy (AdkDemo.text p) then []
                     else match AdkDemo.function_call p,
                                AdkDemo.function_response p with
                          | None, Some r => [r]
                          | _, _ => []
                          end) parts.

(** An event whose content, when there, has a list of parts. *)
Definition has_parts_list (e : AdkDemo.event) : bool :=
  match AdkDemo.content e with
  | Some None => false
  | _ => true
  end.

(** The first line printed for the [i]-th test query. *)
Definition test_line (i : nat) (query : string) : text :=
  [Lit (String "010" "Test "); Number (Z.of_nat i); Lit (": " ^^ query)].

(** A printed line that reports a caught exception. *)
Definition is_error_line (t : text) : bool :=
  match t with
  | Lit s :: _ => String.eqb s "Error: "
  | _ => false
  end.

(** An event with no [parts] field to read, in the widest sense: it has no
    [content] field (an event that is no record has none), or its content
    has no [parts] field (a content that is no record has none). *)
Definition without_parts (event : value) : Prop :=
  Spec.field "content" event = None
  \/ exists content,
       Spec.field "content" event = Some content
       /\ Spec.field "parts" content = None.

(** The content answers no to the question whether it holds ["parts"]: it
    is a record without that key, or a list or a string in which ["parts"]
    does not occur.  [None], a boolean or a number cannot be asked. *)
Definition answers_no (content : value) : bool :=
  match content with
  | VDict d => negb (mem "parts" d)
  | VList l => negb (existsb (eq_str "parts") l)
  | VStr s => negb (is_infix "parts" s)
  | _ => false
  end.

(** The event is one the loop passes over: it is no record, or has no
    [content], or has a content that answers no. *)
Definition quiet (event : value) : bool :=
  match event with
  | VDict ev =>
      match lookup "content" ev with
      | None => true
      | Some content => answers_no content
      end
  | _ => true
  end.

(** What the test loop prints for the [i]-th query: its two heading lines,
    then what the query itself prints. *)
Definition block (stream_of : string -> Invocations.stream) (i : nat)
    (query : string) : list text :=
  Invocations.query_header i query ++ Invocations.run_query (stream_of query).

(** The session id [test_deployed_agent] gets hold of, if it does: the
    agent is found, the session is created and has an [id]. *)
Definition session_id (w : Invocations.world) (agent_resource_name : string)
  : option value :=
  match Invocations.get w agent_resource_name with
  | inr a =>
      match Invocations.create_session a with
      | inr session =>
          match getitem session "id" with
          | Ok id => Some id
          | Raise _ => None
          end
      | inl _ => None
      end
  | inl _ => None
  end.

End Reading.

(** ** The deployment scripts as processes *)

Module Scripts.
Import Py.

(** How a run of a script ends: with an exit status ([sys.exit(code)], or
    status 0 at the end of [main]), or with an exception that nothing
    catches, which the interpreter reports with a traceback. *)
Inductive ending : Type :=
| Exited (code : Z)
| Traceback (e : string).

(** What a run of [deploy_to_agentspace.py] meets.  [get_access_token]
    catches [CalledProcessError] and [FileNotFoundError] only: [uncaught] is
    any other exception of [subprocess.run], if it raises one; otherwise the
    run goes on in [agentspace]. *)
Record agentspace_process : Type := {
  uncaught : option string;
  agentspace : DeployToAgentspace.world
}.

(** A run of [deploy_to_agentspace.py]: the records logged and the ending.
    An exception of [subprocess.run] that is not caught comes after the
    eight records [main] logs before it calls [deploy_to_agentspace]. *)
Definition deploy_to_agentspace_script (env : environ)
    (p : agentspace_process) : list record * ending :=
  match uncaught p with
  | Some e =>
      ([ info "Starting Agentspace deployment...";
         info (times "=" 60);
         info "Configuration:";
         info ("  PROJECT_ID: " ^^ fmt (PROJECT_ID env));
         info ("  APP_ID: " ^^ fmt (APP_ID env));
         info ("  ADK_DEPLOYMENT_ID: " ^^ fmt (ADK_DEPLOYMENT_ID env));
         info ("  ADK_LOCATION: " ^^ fmt (LOCATION env));
         info (times "=" 60) ],
       Traceback e)
  | None =>
      let (log, code) := DeployToAgentspace.main env (agentspace p) in
      (log, Exited code)
  end.

(** What a run of [deploy_adk_agent.py] meets.  Its import of
    [adk_agent.py] runs [vertexai.init(project=PROJECT_ID,
    location=LOCATION, staging_bucket=STAGING_BUCKET)] before [main]:
    [vertexai_init project location staging_bucket] is the exception the
    call raises, or the platform as the call has configured it. *)
Record engine_process : Type := {
  vertexai_init :
    option string -> option string -> option string ->
    string + DeployAdkAgent.world
}.

(** A run of [deploy_adk_agent.py]: the records logged and the ending. *)
Definition deploy_adk_agent_script (env : environ) (p : engine_process)
  : list record * ending :=
  match vertexai_init p (PROJECT_ID env) (LOCATION env) (STAGING_BUCKET env) with
  | inl e => ([], Traceback e)
  | inr w =>
      let (log, code) := DeployAdkAgent.main env w in
      (log, Exited code)
  end.

End Scripts.

(** ** More concrete runs *)

Module Runs.
Import Py.

(** A stream of one text event, and one cut short before any event. *)
Definition greeting : Invocations.stream :=
  {| Invocations.events :=
       [ VDict [ ("content",
                  VDict [("parts", VList [VDict [("text", VStr " hi ")]])]) ] ];
     Invocations.failure := None |}.

Definition broken : Invocations.stream :=
  {| Invocations.events := [];
     Invocations.failure := Some "503 Service Unavailable" |}.

(** A deployed agent that answers every query but the one about Tokyo. *)
Definition flaky_agent : Invocations.agent :=
  {| Invocations.create_session := inr (VDict [("id", VStr "s1")]);
     Invocations.stream_query := fun _ query =>
       if String.eqb query "What time is it in Tokyo?" then broken
       else greeting |}.

Definition flaky_platform : Invocations.world :=
  {| Invocations.init := None;
     Invocations.get := fun _ => inr flaky_agent |}.

(** A platform that does not know the agent. *)
Definition unknown_agent : Invocations.world :=
  {| Invocations.init := None;
     Invocations.get := fun _ => inl "404 Not Found" |}.

(** [gcloud] is not installed and the default credentials hold a token. *)
Definition adc_only (post : DeployToAgentspace.request -> DeployToAgentspace.post_run)
  : DeployToAgentspace.world :=
  {| DeployToAgentspace.gcloud := DeployToAgentspace.FileNotFoundError;
     DeployToAgentspace.adc := DeployToAgentspace.Refreshed (Some "adc-token");
     DeployToAgentspace.post := post |}.

(** No credentials at all. *)
Definition no_credentials (post : DeployToAgentspace.request -> DeployToAgentspace.post_run)
  : DeployToAgentspace.world :=
  {| DeployToAgentspace.gcloud := DeployToAgentspace.FileNotFoundError;
     DeployToAgentspace.adc := DeployToAgentspace.AdcRaised "no credentials";
     DeployToAgentspace.post := post |}.

(** The endpoint answers 200 with the created agent. *)
Definition created : DeployToAgentspace.response :=
  {| DeployToAgentspace.status_code := 200;
     DeployToAgentspace.body := "{...}";
     DeployToAgentspace.json :=
       DeployToAgentspace.Json (VDict [("name", VStr "projects/p/agents/1")]) |}.

(** A deployed application whose test session cannot be made. *)
Definition sessionless_app : DeployAdkAgent.remote_app :=
  {| DeployAdkAgent.resource_name :=
       "projects/1234567890/locations/europe-west1/reasoningEngines/4242";
     DeployAdkAgent.create_session := inl "permission denied";
     DeployAdkAgent.stream_query := fun _ =>
       {| DeployAdkAgent.events := [];
          DeployAdkAgent.failure := None |} |}.

(** [uv export] fails, Agent Engine accepts the deployment. *)
Definition engine_without_sessions : DeployAdkAgent.world :=
  {| DeployAdkAgent.uv_export :=
       DeployAdkAgent.UvCalledProcessError "exit status 2" "no pyproject.toml";
     DeployAdkAgent.create := fun _ => inr sessionless_app |}.

(** Agent Engine refuses the deployment. *)
Definition engine_down : DeployAdkAgent.world :=
  {| DeployAdkAgent.uv_export := DeployAdkAgent.Exported ["google-adk==1.4.2"];
     DeployAdkAgent.create := fun _ => inl "quota exceeded" |}.


(** [vertexai.init] refuses a configuration without a location. *)
Definition engine_process_strict : Scripts.engine_process :=
  {| Scripts.vertexai_init := fun _ location _ =>
       match location with
       | Some _ => inr Scenario.engine_up
       | None => inl "Unsupported region for Vertex AI"
       end |}.

(** [subprocess.run] may not execute [gcloud]. *)
Definition gcloud_forbidden : Scripts.agentspace_process :=
  {| Scripts.uncaught := Some "[Errno 13] Permission denied: 'gcloud'";
     Scripts.agentspace := Scenario.answering 200 |}.

(** Parts of the demo: a blank text that carries a call, a call, a text. *)
Definition blank_with_call : AdkDemo.part :=
  {| AdkDemo.text := Some " ";
     AdkDemo.function_call :=
       Some {| AdkDemo.call_name := VStr "get_weather";
               AdkDemo.call_args := VDict [("city", VStr "Paris")] |};
     AdkDemo.function_response := None |}.

Definition weather_call : AdkDemo.part :=
  {| AdkDemo.text := None;
     AdkDemo.function_call :=
       Some {| AdkDemo.call_name := VStr "get_weather";
               AdkDemo.call_args := VDict [("city", VStr "Paris")] |};
     AdkDemo.function_response := None |}.

Definition rainy : AdkDemo.part :=
  {| AdkDemo.text := Some (String "010" "It is rainy in Paris. ");
     AdkDemo.function_call := None;
     AdkDemo.function_response := None |}.

Definition demo_events : list AdkDemo.event :=
  [ {| AdkDemo.content := None |};
    {| AdkDemo.content := Some (Some [weather_call]) |};
    {| AdkDemo.content := Some (Some [blank_with_call; rainy]) |} ].

End Runs.

(** ** Properties of the built-in operations *)

Section Strings.
Import Py Spec.

Lemma append_empty_r (s : string) : s ^^ EmptyString = s.
Proof. induction s; simpl; congruence. Qed.

Lemma append_assoc (a b c : string) : (a ^^ b) ^^ c = a ^^ b ^^ c.
Proof. induction a; simpl; congruence. Qed.

Lemma all_space_empty : all_space EmptyString.
Proof. constructor. Qed.

Lemma all_space_cons c s :
  is_space c = true -> all_space s -> all_space (String c s).
Proof. intros; constructor; assumption. Qed.

Lemma lstrip_split (s : string) :
  exists pre, s = pre ^^ lstrip s /\ all_space pre.
Proof.
  induction s as [|c s IH]; simpl.
  - exists EmptyString. split; [reflexivity | apply all_space_empty].
  - destruct (is_space c) eqn:E.
    + destruct IH as (pre & Hs & Hpre).
      exists (String c pre). simpl. split.
      * now rewrite <- Hs.
      * now apply all_space_cons.
    + exists EmptyString. split; [reflexivity | apply all_space_empty].
Qed.

Lemma lstrip_first (s : string) c :
  first_char (lstrip s) = Some c -> is_space c = false.
Proof.
  induction s as [|a s IH]; simpl; [discriminate|].
  destruct (is_space a) eqn:E; [assumption|].
  simpl. now intros [= <-].
Qed.

Lemma rstrip_split (s : string) :
  exists post, s = rstrip s ^^ post /\ all_space post.
Proof.
  induction s as [|c s IH]; simpl.
  - exists EmptyString. split; [reflexivity | apply all_space_empty].
  - destruct IH as (post & Hs & Hpost).
    destruct (rstrip s) as [|r0 r] eqn:R.
    + simpl in Hs. subst post. destruct (is_space c) eqn:E.
      * exists (String c s). split; [reflexivity | now apply all_space_cons].
      * exists s. split; [reflexivity | assumption].
    + exists post. simpl. split; [now rewrite Hs at 1 | assumption].
Qed.

Lemma rstrip_last (s : string) c :
  last_char (rstrip s) = Some c -> is_space c = false.
Proof.
  induction s as [|a s IH]; simpl; [discriminate|].
  destruct (rstrip s) as [|r0 r] eqn:R.
  - destruct (is_space a) eqn:E; simpl; [discriminate|]. now intros [= <-].
  - simpl. simpl in IH. exact IH.
Qed.

Lemma rstrip_first (s : string) c :
  first_char (rstrip s) = Some c -> first_char s = Some c.
Proof.
  destruct s as [|a s]; simpl; [discriminate|].
  destruct (rstrip s); [destruct (is_space a)|]; simpl; congruence.
Qed.

Lemma strip_trimmed (s : string) : trimmed s (strip s).
Proof.
  unfold trimmed, strip. repeat split.
  - destruct (lstrip_split s) as (pre & Hs & Hpre).
    destruct (rstrip_split (lstrip s)) as (post & Hl & Hpost).
    exists pre, post. split; [|split; assumption].
    now rewrite <- Hl.
  - intros c H. apply rstrip_first in H. now apply lstrip_first in H.
  - apply rstrip_last.
Qed.

End Strings.

(** ** response_utils.py: the normaliser *)

Section Normaliser.
Import Py ResponseUtils Spec.

Lemma for_each_app {S A : Type} (body : S -> A -> result S) xs ys s :
  for_each body (xs ++ ys) s = (s' <- for_each body xs s ;; for_each body ys s').
Proof.
  revert s. induction xs as [|x xs IH]; intros s; simpl; [reflexivity|].
  destruct (body s x); simpl; [apply IH | reflexivity].
Qed.

(** The loop body only appends: its effect on any accumulator is its effect
    on the empty one, appended. *)
Lemma process_part_acc acc part :
  process_part acc part =
  (ts <- process_part [] part ;; Ok (acc ++ ts)).
Proof.
  unfold process_part.
  destruct (contains "text" part) as [[|]|]; simpl; try reflexivity.
  - destruct (getitem part "text") as [x|]; simpl; [|reflexivity].
    destruct (call_strip x); reflexivity.
  - destruct (contains "function_call" part) as [[|]|]; simpl; try reflexivity.
    destruct (getitem part "function_call") as [x|]; simpl; [|reflexivity].
    destruct (call_get x "name" _); simpl; [|reflexivity].
    destruct (call_get x "args" _); reflexivity.
Qed.

(** A part that is processed yields exactly one tuple, and that tuple is the
    one the contract gives. *)
Lemma process_part_classified part ts :
  process_part [] part = Ok ts -> exists t, ts = [t] /\ classified part t.
Proof.
  unfold process_part.
  destruct (contains "text" part) as [[|]|] eqn:Ht; simpl; try discriminate.
  - destruct part; simpl; try discriminate.
    destruct (lookup "text" items) as [x|] eqn:L; simpl; [|discriminate].
    destruct x; simpl; try discriminate.
    intros [= <-]. eexists; split; [reflexivity|].
    eapply classified_text; [eassumption | apply strip_trimmed].
  - destruct (contains "function_call" part) as [[|]|] eqn:Hc; simpl;
      try discriminate.
    + destruct part; simpl; try discriminate.
      destruct (lookup "function_call" items) as [x|] eqn:L; simpl;
        [|discriminate].
      destruct x; simpl; try discriminate.
      assert (Hn : lookup "text" items = None).
      { simpl in Ht. unfold mem in Ht.
        destruct (lookup "text" items); [discriminate | reflexivity]. }
      destruct (lookup "name" items0) eqn:N, (lookup "args" items0) eqn:A;
        simpl; intros [= <-]; eexists; (split; [reflexivity|]);
        pose proof (classified_call items items0 Hn L) as C;
        rewrite N, A in C; exact C.
    + intros [= <-]. eexists; split; [reflexivity|].
      now apply classified_other.
Qed.

Lemma process_parts_yield parts : forall acc out,
  for_each process_part parts acc = Ok out ->
  exists ts, out = acc ++ ts /\ Forall2 yields parts ts.
Proof.
  induction parts as [|p parts IH]; intros acc out; simpl.
  - intros [= <-]. exists []. split; [now rewrite app_nil_r | constructor].
  - rewrite process_part_acc.
    destruct (process_part [] p) as [ts|] eqn:P; simpl; [|discriminate].
    destruct (process_part_classified _ _ P) as (t & -> & C).
    intros H. apply IH in H as (ts & -> & F).
    exists (t :: ts). split; [now rewrite <- app_assoc|].
    constructor; [split; assumption | assumption].
Qed.

Lemma process_event_yield event acc out :
  process_event acc event = Ok out ->
  exists ts, out = acc ++ ts /\ Forall2 yields (event_parts event) ts.
Proof.
  assert (Nil : forall o : list tagged,
             exists ts, o = o ++ ts /\ Forall2 yields [] ts).
  { intros o. exists []. split; [now rewrite app_nil_r | constructor]. }
  destruct event; simpl; try (intros [= <-]; apply Nil).
  unfold mem. destruct (lookup "content" items) as [content|] eqn:C; simpl;
    [|intros [= <-]; apply Nil].
  destruct (contains "parts" content) as [[|]|] eqn:HP; simpl;
    try discriminate.
  - destruct content; simpl; try discriminate.
    destruct (lookup "parts" items0) as [parts|] eqn:L; simpl; [|discriminate].
    destruct (iter parts) as [ps|]; simpl; [|discriminate].
    apply process_parts_yield.
  - intros [= <-].
    destruct content; try apply Nil.
    simpl in HP. unfold mem in HP.
    destruct (lookup "parts" items0); [discriminate | apply Nil].
Qed.

Lemma process_events_yield events : forall acc out,
  for_each process_event events acc = Ok out ->
  exists ts, out = acc ++ ts /\ Forall2 yields (stream_parts events) ts.
Proof.
  unfold stream_parts.
  induction events as [|e events IH]; intros acc out; simpl.
  - intros [= <-]. exists []. split; [now rewrite app_nil_r | constructor].
  - destruct (process_event acc e) as [mid|] eqn:E; simpl; [|discriminate].
    apply process_event_yield in E as (ts1 & -> & F1).
    intros H. apply IH in H as (ts2 & -> & F2).
    exists (ts1 ++ ts2). split; [now rewrite <- app_assoc|].
    now apply Forall2_app.
Qed.

Lemma Forall2_nth_error {A B : Type} (R : A -> B -> Prop) xs ys :
  Forall2 R xs ys ->
  forall n x, nth_error xs n = Some x ->
  exists y, nth_error ys n = Some y /\ R x y.
Proof.
  induction 1 as [|x0 y0 xs ys H0 F IH]; intros [|n] x; simpl; try discriminate.
  - intros [= <-]. eauto.
  - apply IH.
Qed.

(** On well-formed parts the loop body returns. *)
Lemma process_part_total acc part :
  well_formed_part part = true -> exists out, process_part acc part = Ok out.
Proof.
  destruct part; simpl; try discriminate.
  unfold process_part; simpl; unfold mem.
  destruct (lookup "text" items) as [x|]; simpl.
  - destruct x; try discriminate. simpl. eauto.
  - destruct (lookup "function_call" items) as [x|]; simpl; [|eauto].
    destruct x; try discriminate. simpl.
    destruct (lookup "name" items0), (lookup "args" items0); simpl; eauto.
Qed.

Lemma process_parts_total parts : forall acc,
  forallb well_formed_part parts = true ->
  exists out, for_each process_part parts acc = Ok out.
Proof.
  induction parts as [|p parts IH]; intros acc; simpl; [eauto|].
  intros H. apply andb_prop in H as [Hp Hps].
  destruct (process_part_total acc p Hp) as (mid & ->). simpl. now apply IH.
Qed.

Lemma process_event_total acc event :
  well_formed_event event = true -> exists out, process_event acc event = Ok out.
Proof.
  destruct event; simpl; eauto.
  unfold mem. destruct (lookup "content" items) as [content|]; simpl; [|eauto].
  destruct content; try discriminate. simpl. unfold mem.
  destruct (lookup "parts" items0) as [parts|]; simpl; [|eauto].
  destruct parts; try discriminate. simpl. apply process_parts_total.
Qed.

Lemma process_stream_total events : forall acc,
  forallb well_formed_event events = true ->
  exists out, for_each process_event events acc = Ok out.
Proof.
  induction events as [|e events IH]; intros acc; simpl; [eauto|].
  intros H. apply andb_prop in H as [He Hes].
  destruct (process_event_total acc e He) as (mid & ->). simpl. now apply IH.
Qed.

Lemma lacks_parts_skipped event acc :
  lacks_parts event -> process_event acc event = Ok acc.
Proof.
  intros [ev H | ev content H1 H2]; simpl; unfold mem; rewrite ?H, ?H1; simpl.
  - reflexivity.
  - unfold mem. rewrite H2. reflexivity.
Qed.

End Normaliser.

Section NormaliserClaims.
Import Py ResponseUtils Spec.

(** C1. Classification of a part.  The loop body of
    [process_stream_response], run on a record-shaped part, appends
    [("text", s.strip())] when the part has a [text] field holding the string
    [s]; else [("function_call", {name, args})] when it has a [function_call]
    record, [name] defaulting to ["unknown"] and [args] to the empty mapping;
    else [("other", part)] with the part as it came.  In every run that
    returns, the tuple at the position of a part is the one this
    classification gives. *)
Theorem part_classification :
  (forall response_parts d s,
     lookup "text" d = Some (VStr s) ->
     process_part response_parts (VDict d)
     = Ok (response_parts ++ [("text", VStr (strip s))])
     /\ trimmed s (strip s))
  /\ (forall response_parts d func_call,
        lookup "text" d = None ->
        lookup "function_call" d = Some (VDict func_call) ->
        process_part response_parts (VDict d)
        = Ok (response_parts ++
              [("function_call",
                VDict [ ("name", or_default (lookup "name" func_call) (VStr "unknown"));
                        ("args", or_default (lookup "args" func_call) (VDict [])) ])]))
  /\ (forall response_parts d,
        lookup "text" d = None ->
        lookup "function_call" d = None ->
        process_part response_parts (VDict d)
        = Ok (response_parts ++ [("other", VDict d)]))
  /\ (forall stream_events out n part,
        process_stream_response stream_events = Ok out ->
        nth_error (stream_parts stream_events) n = Some part ->
        exists t, nth_error out n = Some t /\ classified part t).
Proof.
  repeat split.
  - unfold process_part; simpl; unfold mem. rewrite H. reflexivity.
  - destruct (strip_trimmed s) as ((pre & post & Hs) & _). eauto.
  - apply (strip_trimmed s).
  - apply (strip_trimmed s).
  - intros rp d fc Ht Hc. unfold process_part; simpl; unfold mem.
    rewrite Ht; simpl. rewrite Hc; simpl.
    destruct (lookup "name" fc), (lookup "args" fc); reflexivity.
  - intros rp d Ht Hc. unfold process_part; simpl; unfold mem.
    rewrite Ht; simpl. rewrite Hc; reflexivity.
  - intros events out n part Hrun Hn.
    apply process_events_yield in Hrun as (ts & -> & F).
    destruct (Forall2_nth_error _ _ _ F n part Hn) as (t & Ht & _ & C).
    exists t. split; assumption.
Qed.

Lemma part_classification_witness :
  exists t,
    nth_error
      [ ("text", VStr "hi");
        ("function_call",
         VDict [ ("name", VStr "get_weather");
                 ("args", VDict [("city", VStr "Paris")]) ]) ] 1
    = Some t
    /\ classified
         (VDict [ ("function_call",
                   VDict [ ("name", VStr "get_weather");
                           ("args", VDict [("city", VStr "Paris")]) ]) ])
         t.
Proof.
  apply (proj2 (proj2 (proj2 part_classification))
           [ VDict [ ("content",
                      VDict [ ("parts",
                               VList [ VDict [("text", VStr " hi ")];
                                       VDict [ ("function_call",
                                                VDict [ ("name", VStr "get_weather");
                                                        ("args", VDict [("city", VStr "Paris")]) ]) ] ]) ]) ] ]);
    reflexivity.
Defined.

(** C2. Length and order.  On a well-formed stream
    [process_stream_response] returns; and whenever it returns, its list is
    as long as the parts of the events that have a [content] with a [parts]
    field, events without one counting for nothing, and the tuple at
    position [n] is the one the [n]-th part gives when processed alone. *)
Theorem output_follows_parts (stream_events : list value) :
  (forallb well_formed_event stream_events = true ->
   exists out, process_stream_response stream_events = Ok out)
  /\ (forall event, lacks_parts event -> event_parts event = [])
  /\ (forall out,
        process_stream_response stream_events = Ok out ->
        length out = length (stream_parts stream_events)
        /\ forall n part,
             nth_error (stream_parts stream_events) n = Some part ->
             exists t, nth_error out n = Some t
                       /\ process_part [] part = Ok [t]).
Proof.
  split; [|split].
  - apply process_stream_total.
  - intros event [ev H | ev content H1 H2]; simpl; rewrite ?H, ?H1, ?H2;
      reflexivity.
  - intros out Hrun.
    apply process_events_yield in Hrun as (ts & -> & F). simpl. split.
    + symmetry. eapply Forall2_length, F.
    + intros n part Hn.
      destruct (Forall2_nth_error _ _ _ F n part Hn) as (t & Ht & P & _).
      eauto.
Qed.

Lemma output_follows_parts_witness :
  length [ ("text", VStr "hi"); ("other", VDict [("thought", VBool true)]) ]
  = length
      (stream_parts
         [ VDict [("usage", VInt 3)];
           VDict [ ("content",
                    VDict [ ("parts",
                             VList [ VDict [("text", VStr " hi ")];
                                     VDict [("thought", VBool true)] ]) ]) ] ]).
Proof.
  apply (proj2 (proj2 (output_follows_parts
           [ VDict [("usage", VInt 3)];
             VDict [ ("content",
                      VDict [ ("parts",
                               VList [ VDict [("text", VStr " hi ")];
                                       VDict [("thought", VBool true)] ]) ]) ] ]))
           [ ("text", VStr "hi"); ("other", VDict [("thought", VBool true)]) ]);
    reflexivity.
Defined.

(** C3, as the sources have it.  [process_stream_response] returns, raising
    nothing, on every stream of well-formed events: an event that is no
    record, or a record whose [content], when there, is a record whose
    [parts], when there, is a list of records in which [text] is a string
    and, without [text], [function_call] is a record. *)
Theorem returns_on_well_formed (stream_events : list value) :
  forallb well_formed_event stream_events = true ->
  exists out, process_stream_response stream_events = Ok out.
Proof. apply process_stream_total. Qed.

Lemma returns_on_well_formed_witness :
  exists out,
    process_stream_response
      [ VStr "keep-alive";
        VDict [("content", VDict [("role", VStr "model")])];
        VDict [ ("content",
                 VDict [ ("parts",
                          VList [ VDict [("function_call", VDict [])] ]) ]) ] ]
    = Ok out.
Proof. apply returns_on_well_formed. reflexivity. Defined.

(** C3 as stated fails: an event whose [content] is [None] makes the
    membership test ["parts" in content] raise [TypeError]. *)
Lemma raises_on_null_content :
  process_stream_response [VDict [("content", VNone)]] = Raise TypeError
  /\ ~ (forall stream_events,
          exists out, process_stream_response stream_events = Ok out).
Proof.
  split; [reflexivity|].
  intros H. destruct (H [VDict [("content", VNone)]]) as (out & E).
  discriminate E.
Qed.

(** An event record without a [content] field, or whose content record has
    no [parts] field, is passed over: alone it gives the empty list, and
    anywhere in a stream the result, value or exception, is that of the
    stream without it. *)
Lemma skipped_without_parts (event : value) :
  lacks_parts event ->
  process_stream_response [event] = Ok []
  /\ forall before after,
       process_stream_response (before ++ event :: after)
       = process_stream_response (before ++ after).
Proof.
  intros L. unfold process_stream_response. split.
  - simpl. now rewrite lacks_parts_skipped.
  - intros before after. rewrite !for_each_app.
    destruct (for_each process_event before []) as [acc|]; simpl;
      [|reflexivity].
    now rewrite lacks_parts_skipped.
Qed.

Lemma quiet_skipped event acc :
  Reading.quiet event = true -> process_event acc event = Ok acc.
Proof.
  destruct event; try reflexivity. simpl. unfold mem.
  destruct (lookup "content" items) as [content|]; [|reflexivity].
  simpl. destruct content; simpl; try discriminate;
    intros Q; apply negb_true_iff in Q; now rewrite Q.
Qed.

Lemma loud_raises event acc :
  Reading.without_parts event -> Reading.quiet event = false ->
  process_event acc event = Raise TypeError.
Proof.
  intros W Q. destruct event; try discriminate Q.
  unfold Reading.without_parts, Reading.quiet in *. simpl in *. unfold mem.
  destruct (lookup "content" items) as [content|]; [|discriminate Q].
  destruct W as [W | (c & E & W)]; [discriminate W|].
  injection E as <-. simpl.
  destruct content; simpl in *; try reflexivity;
    apply negb_false_iff in Q.
  - now rewrite Q.
  - now rewrite Q.
  - unfold mem in Q. rewrite W in Q. discriminate Q.
Qed.

(** C4 as stated fails: the event whose [content] is [None] has no [parts]
    field, and it is not passed over: the test for [parts] raises
    [TypeError]. *)
Lemma null_content_not_skipped :
  Reading.without_parts (VDict [("content", VNone)])
  /\ process_stream_response [VDict [("content", VNone)]] = Raise TypeError
  /\ ~ (forall event,
          Reading.without_parts event ->
          process_stream_response [event] = Ok []).
Proof.
  assert (W : Reading.without_parts (VDict [("content", VNone)])).
  { right. exists VNone. split; reflexivity. }
  split; [exact W | split; [reflexivity|]].
  intros H. specialize (H _ W). discriminate H.
Qed.

(** C4, as the sources have it.  Take an event with no [parts] field to
    read: it has no [content] field, or its content has no [parts] field.
    When the event is no record, or has no [content], or has a content that
    is a record (or a list or a string in which ["parts"] does not occur),
    it contributes no tuple and is passed over without an error: alone it
    gives the empty list, and anywhere in a stream the result is that of the
    stream without it.  Otherwise, its content being [None], a boolean, a
    number, or a list or string in which ["parts"] occurs, it is not passed
    over: it raises [TypeError], alone and after any events that were
    processed. *)
Theorem events_without_parts (event : value) :
  Reading.without_parts event ->
  (Reading.is_dict event = false \/ lacks_parts event ->
   Reading.quiet event = true)
  /\ (Reading.quiet event = true ->
      process_stream_response [event] = Ok []
      /\ forall before after,
           process_stream_response (before ++ event :: after)
           = process_stream_response (before ++ after))
  /\ (Reading.quiet event = false ->
      process_stream_response [event] = Raise TypeError
      /\ forall before after out,
           process_stream_response before = Ok out ->
           process_stream_response (before ++ event :: after)
           = Raise TypeError).
Proof.
  intros W. split; [|split].
  - intros [N | L].
    + destruct event; try reflexivity. discriminate N.
    + destruct L as [ev H | ev content H1 H2]; simpl.
      * now rewrite H.
      * rewrite H1. simpl. unfold mem. now rewrite H2.
  - intros Q. unfold process_stream_response. split.
    + simpl. now rewrite quiet_skipped.
    + intros before after. rewrite !for_each_app.
      destruct (for_each process_event before []) as [acc|]; simpl;
        [|reflexivity].
      now rewrite quiet_skipped.
  - intros Q. unfold process_stream_response. split.
    + simpl. now rewrite (loud_raises _ _ W Q).
    + intros before after out B. rewrite for_each_app, B. simpl.
      now rewrite (loud_raises _ _ W Q).
Qed.

Lemma events_without_parts_witness :
  process_stream_response [VDict [("content", VDict [("role", VStr "model")])]]
  = Ok [].
Proof.
  apply (proj1 (proj2 (events_without_parts
           (VDict [("content", VDict [("role", VStr "model")])])
           (or_intror
              (ex_intro _ (VDict [("role", VStr "model")])
                 (conj eq_refl eq_refl)))))).
  reflexivity.
Defined.

End NormaliserClaims.

(** ** response_utils.py: the display routine *)

Section Display.
Import Py ResponseUtils Spec.

Lemma classified_shaped part t : classified part t -> shaped t.
Proof.
  intros [d s t' _ _ | d fc _ _ | p _ _]; unfold shaped; simpl.
  - left. eauto.
  - right; left. eauto.
  - right; right. reflexivity.
Qed.

Lemma output_shaped stream_events out :
  process_stream_response stream_events = Ok out -> Forall shaped out.
Proof.
  intros Hrun. apply process_events_yield in Hrun as (ts & -> & F). simpl.
  induction F as [|p t ps ts [_ C] _ IH]; constructor;
    [eapply classified_shaped; eassumption | assumption].
Qed.

(** On shaped tuples the loop raises nothing and prints lines of two pieces,
    at least one per tuple. *)
Lemma display_loop_shaped ts :
  Forall shaped ts ->
  forall out, exists lines,
    display_loop ts out = (out ++ lines, None)
    /\ Forall (fun l => length l = 2) lines
    /\ (ts <> [] -> lines <> []).
Proof.
  induction 1 as [|[tag content] ts Ht _ IH]; intros out; simpl.
  - exists []. rewrite app_nil_r. repeat split; [constructor | congruence].
  - destruct Ht as [(Htag & s & Hs) | [(Htag & name & args & Hc) | Htag]];
      simpl in *; subst; simpl.
    + destruct (IH (out ++ [[Lit "Response: "; Lit s]])) as (lines & -> & L & _).
      exists ([Lit "Response: "; Lit s] :: lines).
      rewrite <- app_assoc. repeat split; [constructor; auto | discriminate].
    + destruct (IH ((out ++ [[Lit "Function Call: "; render name]])
                      ++ [[Lit "  Args: "; render args]]))
        as (lines & -> & L & _).
      exists ([Lit "Function Call: "; render name]
                :: [Lit "  Args: "; render args] :: lines).
      rewrite <- !app_assoc. repeat split; [repeat constructor; auto | discriminate].
    + destruct (IH (out ++ [[Lit "Other part: "; render content]]))
        as (lines & -> & L & _).
      exists ([Lit "Other part: "; render content] :: lines).
      rewrite <- app_assoc. repeat split; [constructor; auto | discriminate].
Qed.

(** C5. The empty case.  An empty stream gives the empty list;
    [display_response_parts] on the empty list prints the one line
    [No response received] and raises nothing; and on any list the
    normaliser returns it raises nothing and prints that line only when the
    list is empty. *)
Theorem empty_stream_no_response :
  process_stream_response [] = Ok []
  /\ display_response_parts [] = ([[Lit "No response received"]], None)
  /\ (forall stream_events out,
        process_stream_response stream_events = Ok out ->
        snd (display_response_parts out) = None
        /\ (fst (display_response_parts out) = [[Lit "No response received"]]
            <-> out = [])).
Proof.
  split; [reflexivity | split; [reflexivity|]].
  intros events out Hrun. apply output_shaped in Hrun.
  destruct out as [|t out]; [split; [reflexivity | split; reflexivity]|].
  destruct (display_loop_shaped (t :: out) Hrun []) as (lines & E & L & N).
  unfold display_response_parts. rewrite E. simpl. split; [reflexivity|].
  split; [|discriminate].
  intros ->. inversion L as [|l ls Hl _]; subst. discriminate Hl.
Qed.

End Display.

Lemma empty_stream_no_response_witness :
  snd (ResponseUtils.display_response_parts [("text", Py.VStr "hi")]) = None.
Proof.
  apply (proj2 (proj2 empty_stream_no_response)
           [ Py.VDict [ ("content",
                         Py.VDict [ ("parts",
                                     Py.VList [Py.VDict [("text", Py.VStr " hi ")]]) ]) ] ]
           [("text", Py.VStr "hi")]).
  reflexivity.
Defined.

(** ** adk_agent.py: the lookup tools *)

Section Tools.
Import Py AdkAgent Spec.

Lemma table_get_none k t :
  table_get k t = None <-> ~ In k (map fst t).
Proof.
  induction t as [|[k' v] t IH]; simpl.
  - tauto.
  - destruct (String.eqb_spec k k') as [->|N].
    + split; [discriminate | tauto].
    + rewrite IH. split; [intros H [E|I]; [congruence | tauto] | tauto].
Qed.

Lemma table_get_some k t :
  In k (map fst t) -> exists v, table_get k t = Some v.
Proof.
  intros I. destruct (table_get k t) as [v|] eqn:E; [eauto|].
  apply table_get_none in E. contradiction.
Qed.

Lemma weather_keys : map fst mock_weather_data = supported_cities.
Proof. reflexivity. Qed.

Lemma timezone_keys : map fst city_timezones = supported_cities.
Proof. reflexivity. Qed.

Lemma supported_dec k : {In k supported_cities} + {~ In k supported_cities}.
Proof. apply in_dec, string_dec. Qed.

(** C10. [get_weather] by lowercased city.  The result is the dict with
    [status] ["success"] and a [report] when the lowercased city is one of
    the ten keys of the table, and the dict with [status] ["error"] and an
    [error_message] otherwise; success is equivalent to the lowercased city
    being a key, so two cities with the same lowercase form get the same
    status. *)
Theorem get_weather_by_lowercase (city : string) :
  (In (lower city) supported_cities ->
   exists weather,
     table_get (lower city) mock_weather_data = Some weather
     /\ get_weather city
        = VDict [ ("status", VStr "success");
                  ("report",
                   VStr ("The weather in " ^^ city ^^ " is " ^^ weather ^^ ".")) ])
  /\ (~ In (lower city) supported_cities ->
      get_weather city
      = VDict [ ("status", VStr "error");
                ("error_message",
                 VStr ("Weather information for '" ^^ city
                       ^^ "' is not available.")) ])
  /\ (field "status" (get_weather city) = Some (VStr "success")
      <-> In (lower city) supported_cities)
  /\ (forall city',
        lower city' = lower city ->
        field "status" (get_weather city') = field "status" (get_weather city)).
Proof.
  assert (S : forall c,
             field "status" (get_weather c) = Some (VStr "success")
             <-> In (lower c) supported_cities).
  { intros c. unfold get_weather.
    destruct (table_get (lower c) mock_weather_data) as [w|] eqn:E.
    - split; [intros _ | reflexivity].
      destruct (supported_dec (lower c)) as [I|N]; [assumption|].
      rewrite <- weather_keys in N. apply table_get_none in N. congruence.
    - split; [intros H; simpl in H; discriminate H|]. intros I.
      rewrite <- weather_keys in I. apply table_get_none in E. contradiction. }
  split; [|split; [|split]].
  - intros I. rewrite <- weather_keys in I.
    destruct (table_get_some _ _ I) as (w & E).
    exists w. split; [assumption|]. unfold get_weather. now rewrite E.
  - intros N. rewrite <- weather_keys in N. apply table_get_none in N.
    unfold get_weather. now rewrite N.
  - apply S.
  - intros city' E. unfold get_weather. rewrite E.
    destruct (table_get (lower city) mock_weather_data); reflexivity.
Qed.

Lemma get_weather_by_lowercase_witness :
  exists weather,
    table_get (lower "Hong Kong") mock_weather_data = Some weather
    /\ get_weather "Hong Kong"
       = VDict [ ("status", VStr "success");
                 ("report",
                  VStr ("The weather in " ^^ "Hong Kong" ^^ " is " ^^ weather ^^ ".")) ].
Proof.
  apply (proj1 (get_weather_by_lowercase "Hong Kong")).
  vm_compute. tauto.
Defined.

(** C6 as stated fails for [get_current_time]: two calls with the same city
    at two readings of the clock give two reports. *)
Lemma current_time_follows_clock :
  call_tool Scenario.midnight GetCurrentTime "London"
  <> call_tool Scenario.one_second_later GetCurrentTime "London"
  /\ ~ (forall (t : tool) (city : string) (now1 now2 : clock),
          call_tool now1 t city = call_tool now2 t city).
Proof.
  assert (D : call_tool Scenario.midnight GetCurrentTime "London"
              <> call_tool Scenario.one_second_later GetCurrentTime "London").
  { vm_compute. discriminate. }
  split; [exact D|]. intros H. apply D, H.
Qed.

(** C6, as the sources have it.  [get_weather] is a function of its argument
    alone: whatever the clock reads, two calls with the same city return the
    same result.  [get_current_time] looks the city up in a static table and
    then reads the clock: two calls with the same city return the same
    [status], the same result when the city is not in the table, and the
    same result when the clock reads the same at both calls. *)
Theorem tools_and_the_clock (city : string) (now1 now2 : clock) :
  call_tool now1 GetWeather city = call_tool now2 GetWeather city
  /\ field "status" (call_tool now1 GetCurrentTime city)
     = field "status" (call_tool now2 GetCurrentTime city)
  /\ (~ In (lower city) supported_cities ->
      call_tool now1 GetCurrentTime city = call_tool now2 GetCurrentTime city)
  /\ ((forall tz, now1 tz = now2 tz) ->
      call_tool now1 GetCurrentTime city = call_tool now2 GetCurrentTime city).
Proof.
  unfold call_tool, get_current_time. repeat split.
  - destruct (table_get (lower city) city_timezones); reflexivity.
  - intros N. rewrite <- timezone_keys in N. apply table_get_none in N.
    now rewrite N.
  - intros E. destruct (table_get (lower city) city_timezones); [|reflexivity].
    now rewrite E.
Qed.

Lemma tools_and_the_clock_witness :
  call_tool Scenario.midnight GetCurrentTime "Atlantis"
  = call_tool Scenario.one_second_later GetCurrentTime "Atlantis".
Proof.
  apply (proj1 (proj2 (proj2
           (tools_and_the_clock "Atlantis" Scenario.midnight
              Scenario.one_second_later)))).
  simpl. intuition discriminate.
Defined.

End Tools.

(** ** invoke_adk_agent_deployed.py *)

Section Invocation.
Import Py InvokeDeployed Spec.

Lemma truthy_some s : s <> "" -> truthy (Some s) = true.
Proof. destruct s; [congruence | reflexivity]. Qed.

Lemma no_default_name env :
  truthy (PROJECT_ID env) = false \/ truthy (LOCATION env) = false
  \/ truthy (ADK_DEPLOYMENT_ID env) = false ->
  default_resource_name env = None.
Proof.
  unfold default_resource_name.
  intros [H | [H | H]]; rewrite H; rewrite ?andb_false_r; reflexivity.
Qed.

Lemma exits_without_id env :
  default_resource_name env = None ->
  main env None
  = Exit 1 [ "Error: No agent resource ID provided.";
             "Either provide --id argument or ensure ADK_DEPLOYMENT_ID is set in .env file" ].
Proof. intros H. unfold main, parse_id. now rewrite H. Qed.

(** C7. The [--id] flag.  A value given to [--id] is the resource name the
    script tests, whatever the environment holds; without the flag the name
    is [projects/P/locations/L/reasoningEngines/D] built from [PROJECT_ID],
    [LOCATION] and [ADK_DEPLOYMENT_ID]; and without the flag, when one of the
    three is unset or empty, the script prints its two-line message and exits
    with status 1. *)
Theorem id_flag_or_environment (env : environ) :
  (forall id, id <> "" -> main env (Some id) = TestDeployedAgent id)
  /\ (forall p l d,
        PROJECT_ID env = Some p -> LOCATION env = Some l ->
        ADK_DEPLOYMENT_ID env = Some d ->
        p <> "" -> l <> "" -> d <> "" ->
        main env None
        = TestDeployedAgent
            ("projects/" ^^ p ^^ "/locations/" ^^ l ^^ "/reasoningEngines/" ^^ d))
  /\ (truthy (PROJECT_ID env) = false \/ truthy (LOCATION env) = false
      \/ truthy (ADK_DEPLOYMENT_ID env) = false ->
      main env None
      = Exit 1 [ "Error: No agent resource ID provided.";
                 "Either provide --id argument or ensure ADK_DEPLOYMENT_ID is set in .env file" ]).
Proof.
  split; [|split].
  - intros id N. unfold main, parse_id. now rewrite (truthy_some id N).
  - intros p l d Hp Hl Hd Np Nl Nd. unfold main, parse_id, default_resource_name.
    rewrite Hp, Hl, Hd, !truthy_some by assumption. simpl.
    destruct p; [congruence | reflexivity].
  - intros H. apply exits_without_id, no_default_name, H.
Qed.

Lemma id_flag_or_environment_witness :
  main Scenario.env_without_deployment_id None
  = Exit 1 [ "Error: No agent resource ID provided.";
             "Either provide --id argument or ensure ADK_DEPLOYMENT_ID is set in .env file" ].
Proof.
  apply (proj2 (proj2 (id_flag_or_environment Scenario.env_without_deployment_id))).
  right; right. reflexivity.
Defined.

End Invocation.

(** ** deploy_to_agentspace.py *)

Section Registration.
Import Py DeployToAgentspace Spec.

Lemma handle_false x : snd (handle x) = false.
Proof. destruct x as [[| |] e | e]; reflexivity. Qed.

Lemma on_failure_false r project_id app_id :
  snd (on_failure r project_id app_id) = false.
Proof. reflexivity. Qed.

(** The success branch returns [True] exactly when the body decodes and the
    lookup of [name] in it raises nothing. *)
Lemma on_success_true r :
  snd (on_success r) = true <->
  exists agent_data,
    json r = Json agent_data
    /\ (contains "name" agent_data = Ok false
        \/ exists name, contains "name" agent_data = Ok true
                        /\ getitem agent_data "name" = Ok name).
Proof.
  unfold on_success. destruct (json r) as [v | c e].
  - destruct (contains "name" v) as [[|]|e] eqn:C.
    + destruct (getitem v "name") as [x|e] eqn:G.
      * simpl. split; [intros _ | reflexivity]. exists v. eauto.
      * pose proof (handle_false (Builtin e)) as F.
        destruct (handle (Builtin e)) as [log ret]. simpl in *. subst ret.
        split; [discriminate|]. intros (v' & [= <-] & [H | (x & _ & H)]);
          congruence.
    + simpl. split; [intros _ | reflexivity]. exists v. eauto.
    + pose proof (handle_false (Builtin e)) as F.
      destruct (handle (Builtin e)) as [log ret]. simpl in *. subst ret.
      split; [discriminate|]. intros (v' & [= <-] & [H | (x & H & _)]);
        congruence.
  - pose proof (handle_false (External c e)) as F.
    destruct (handle (External c e)) as [log ret]. simpl in *. subst ret.
    split; [discriminate|]. intros (v' & H & _). discriminate H.
Qed.

(** The value returned once a token is there and the POST was answered. *)
Lemma deploy_answered w project_id app_id adk_deployment_id adk_location token r :
  snd (get_access_token w) = Some token -> token <> "" ->
  post w (build_request token project_id app_id adk_deployment_id adk_location)
  = Responded r ->
  let run := deploy_to_agentspace w project_id app_id adk_deployment_id
               adk_location in
  snd run
  = (if ((status_code r =? 200) || (status_code r =? 201))%Z
     then snd (on_success r) else false)
  /\ (((status_code r =? 200) || (status_code r =? 201))%Z = false ->
      incl (guidance (status_code r) project_id app_id) (fst run)).
Proof.
  intros T N P. cbv zeta. unfold deploy_to_agentspace.
  destruct (get_access_token w) as [log0 tok]. simpl in T. subst tok.
  destruct token as [|c0 t0]; [congruence|]. cbn [truthy negb fmt].
  rewrite P.
  destruct ((status_code r =? 200) || (status_code r =? 201))%Z.
  - destruct (on_success r) as [log ret]. split; [reflexivity | discriminate].
  - cbn [on_failure snd fst]. split; [reflexivity|].
    intros _ x I. apply in_or_app. right. apply in_or_app. now right.
Qed.

Lemma deploy_post_raised w project_id app_id adk_deployment_id adk_location
    token c e :
  snd (get_access_token w) = Some token ->
  post w (build_request token project_id app_id adk_deployment_id adk_location)
  = PostRaised c e ->
  snd (deploy_to_agentspace w project_id app_id adk_deployment_id adk_location)
  = false.
Proof.
  intros T P. unfold deploy_to_agentspace.
  destruct (get_access_token w) as [log0 tok]. simpl in T. subst tok.
  destruct token as [|c0 t0]; [reflexivity|]. cbn [truthy negb fmt].
  rewrite P. pose proof (handle_false (External c e)) as F.
  destruct (handle (External c e)) as [log ret]. exact F.
Qed.

Lemma deploy_without_token w project_id app_id adk_deployment_id adk_location :
  truthy (snd (get_access_token w)) = false ->
  snd (deploy_to_agentspace w project_id app_id adk_deployment_id adk_location)
  = false.
Proof.
  intros T. unfold deploy_to_agentspace.
  destruct (get_access_token w) as [log0 tok]. simpl in T. now rewrite T.
Qed.

(** [deploy_to_agentspace] returns [True] only after a response with status
    200 or 201 whose body went through the success branch. *)
Lemma deploy_true_only_on_success w project_id app_id adk_deployment_id
    adk_location :
  snd (deploy_to_agentspace w project_id app_id adk_deployment_id adk_location)
  = true ->
  exists token r,
    snd (get_access_token w) = Some token
    /\ post w (build_request token project_id app_id adk_deployment_id
                 adk_location) = Responded r
    /\ (status_code r = 200 \/ status_code r = 201)%Z
    /\ snd (on_success r) = true.
Proof.
  intros R.
  destruct (truthy (snd (get_access_token w))) eqn:T.
  - destruct (snd (get_access_token w)) as [[|c0 t0]|] eqn:G;
      try discriminate T.
    set (token := String c0 t0) in *.
    destruct (post w (build_request token project_id app_id adk_deployment_id
                        adk_location)) as [r | c e] eqn:P.
    + assert (N : token <> "") by discriminate.
      destruct (deploy_answered w _ _ _ _ token r G N P) as [E _].
      rewrite R in E.
      destruct ((status_code r =? 200) || (status_code r =? 201))%Z eqn:S;
        [|discriminate E].
      exists token, r. repeat split; auto.
      apply orb_prop in S as [S|S]; apply Z.eqb_eq in S; tauto.
    + rewrite (deploy_post_raised w _ _ _ _ token c e G P) in R. discriminate R.
  - rewrite (deploy_without_token w _ _ _ _ T) in R. discriminate R.
Qed.

(** The guidance for 400, 403 and 404 is there and differs from one status
    to the other; no other status has any. *)
Lemma guidance_distinct project_id app_id :
  guidance 400 project_id app_id <> []
  /\ guidance 403 project_id app_id <> []
  /\ guidance 404 project_id app_id <> []
  /\ guidance 400 project_id app_id <> guidance 403 project_id app_id
  /\ guidance 400 project_id app_id <> guidance 404 project_id app_id
  /\ guidance 403 project_id app_id <> guidance 404 project_id app_id
  /\ (forall code, code <> 400 -> code <> 403 -> code <> 404 ->
                   guidance code project_id app_id = [])%Z.
Proof.
  unfold guidance; simpl. repeat split; try discriminate.
  intros code N1 N2 N3.
  apply Z.eqb_neq in N1, N2, N3. now rewrite N1, N2, N3.
Qed.

(** C8 at a failing input.  The endpoint answers 200 with a body that is not
    JSON: [deploy_to_agentspace] logs the line of a successful deployment,
    then the decoding of the body raises inside the [try], the handler logs
    the failure of the request, and the function returns [False]. *)
Theorem status_200_without_json_fails :
  deploy_to_agentspace Scenario.ok_without_json
    (Some "demo-project") (Some "demo-app") (Some "4242") (Some "europe-west1")
  = ([ info "Successfully obtained access token";
       info "Deploying agent to Agentspace...";
       info "Project ID: demo-project";
       info "App ID: demo-app";
       info "ADK Deployment ID: 4242";
       info "ADK Location: europe-west1";
       info "Endpoint: https://eu-discoveryengine.googleapis.com/v1alpha/projects/demo-project/locations/eu/collections/default_collection/engines/demo-app/assistants/default_assistant/agents";
       info "✓ Successfully deployed agent to Agentspace!";
       (ERROR, [Lit "Request failed: ";
                Lit "Expecting value: line 1 column 1 (char 0)"]) ],
     false).
Proof. reflexivity. Qed.

End Registration.

(** ** The scripts and the environment *)

Section Environment.
Import Py Spec.


Lemma adk_exit env w :
  let run := DeployAdkAgent.main env w in
  let name := snd (DeployAdkAgent.deploy_agent env w) in
  (truthy name = true -> snd run = 0%Z)
  /\ (truthy name = false -> snd run = 1%Z).
Proof.
  cbv zeta. unfold DeployAdkAgent.main.
  destruct (DeployAdkAgent.deploy_agent env w) as [log name]. cbn [snd].
  destruct (truthy name); split; try discriminate; reflexivity.
Qed.






End Environment.

(** ** Worked examples *)

Section Examples.
Import Py.

(** The example of the specification: one event with a text part and a
    function-call part. *)
Example normaliser_example :
  ResponseUtils.process_stream_response
    [ VDict [ ("content",
               VDict [ ("parts",
                        VList [ VDict [("text", VStr " hi ")];
                                VDict [ ("function_call",
                                         VDict [ ("name", VStr "get_weather");
                                                 ("args", VDict [("city", VStr "Paris")]) ]) ] ]) ]) ] ]
  = Ok [ ("text", VStr "hi");
         ("function_call",
          VDict [ ("name", VStr "get_weather");
                  ("args", VDict [("city", VStr "Paris")]) ]) ].
Proof. reflexivity. Qed.

(** A function call without [name] and [args] gets the two defaults. *)
Example defaults_example :
  ResponseUtils.process_part [] (VDict [("function_call", VDict [])])
  = Ok [ ("function_call",
          VDict [("name", VStr "unknown"); ("args", VDict [])]) ].
Proof. reflexivity. Qed.

(** A [text] that is no string has no [strip]. *)
Example text_not_a_string :
  ResponseUtils.process_stream_response
    [ VDict [ ("content", VDict [("parts", VList [VDict [("text", VInt 5)]])]) ] ]
  = Raise AttributeError.
Proof. reflexivity. Qed.

Example display_example :
  ResponseUtils.display_response_parts
    [ ("text", VStr "hi");
      ("function_call",
       VDict [ ("name", VStr "get_weather");
               ("args", VDict [("city", VStr "Paris")]) ]) ]
  = ([ [Lit "Response: "; Lit "hi"];
       [Lit "Function Call: "; Lit "get_weather"];
       [Lit "  Args: "; Str (VDict [("city", VStr "Paris")])] ],
     None).
Proof. reflexivity. Qed.

Example strip_example :
  strip (String "009" (String " " "hi there ")) = "hi there".
Proof. reflexivity. Qed.

Example weather_example :
  AdkAgent.get_weather "PARIS"
  = VDict [ ("status", VStr "success");
            ("report",
             VStr "The weather in PARIS is rainy with a temperature of 18 degrees Celsius (64 degrees Fahrenheit).") ].
Proof. reflexivity. Qed.

Example time_example :
  AdkAgent.get_current_time Scenario.midnight "Tokyo"
  = VDict [ ("status", VStr "success");
            ("report",
             VStr "The current time in Tokyo is 2025-01-01 00:00:00 UTC+0000") ].
Proof. reflexivity. Qed.

Example flag_example :
  InvokeDeployed.main Scenario.env_without_deployment_id
    (Some "projects/p/locations/l/reasoningEngines/7")
  = InvokeDeployed.TestDeployedAgent "projects/p/locations/l/reasoningEngines/7".
Proof. reflexivity. Qed.

Example default_name_example :
  InvokeDeployed.main Scenario.full_env None
  = InvokeDeployed.TestDeployedAgent
      "projects/demo-project/locations/europe-west1/reasoningEngines/4242".
Proof. reflexivity. Qed.

(** Status 201 with a JSON object: the registration succeeds. *)
Example created_example :
  snd (DeployToAgentspace.main Scenario.full_env (Scenario.answering 201)) = 0%Z.
Proof. reflexivity. Qed.

(** Status 404: the guidance for a missing app is logged, the script exits
    with status 1. *)
Example not_found_example :
  snd (DeployToAgentspace.main Scenario.full_env (Scenario.answering 404)) = 1%Z
  /\ In (error "- App ID is correct: demo-app")
        (fst (DeployToAgentspace.main Scenario.full_env (Scenario.answering 404))).
Proof. split; [reflexivity | simpl; tauto]. Qed.

(** With [PROJECT_ID] unset the request goes out all the same, to a path
    that holds the word None. *)
Example unset_project_example :
  DeployToAgentspace.endpoint
    (DeployToAgentspace.build_request "ya" None (Some "demo-app") (Some "4242")
       (Some "europe-west1"))
  = "https://eu-discoveryengine.googleapis.com/v1alpha/projects/None/locations/eu/collections/default_collection/engines/demo-app/assistants/default_assistant/agents".
Proof. reflexivity. Qed.

Example segment_example :
  DeployAdkAgent.last_segment
    "projects/1234567890/locations/europe-west1/reasoningEngines/4242"
  = "4242".
Proof. reflexivity. Qed.

End Examples.

(** ** More on the normaliser and the display routine *)

Section NormaliserMore.
Import Py ResponseUtils Spec Reading.

(** A loop whose body only appends can be run on the empty accumulator. *)
Lemma for_each_shift {A B : Type} (body : list B -> A -> result (list B)) :
  (forall acc x, body acc x = (ts <- body [] x ;; Ok (acc ++ ts))) ->
  forall xs acc,
    for_each body xs acc = (ts <- for_each body xs [] ;; Ok (acc ++ ts)).
Proof.
  intros Hbody xs. induction xs as [|x xs IH]; intros acc; simpl.
  - now rewrite app_nil_r.
  - rewrite (Hbody acc x). destruct (body [] x) as [ts|e]; simpl; [|reflexivity].
    rewrite (IH (acc ++ ts)), (IH ts).
    destruct (for_each body xs []) as [us|e]; simpl; [|reflexivity].
    now rewrite app_assoc.
Qed.

Lemma process_event_acc acc event :
  process_event acc event = (ts <- process_event [] event ;; Ok (acc ++ ts)).
Proof.
  destruct event; simpl; try now rewrite app_nil_r.
  destruct (mem "content" items); simpl; [|now rewrite app_nil_r].
  destruct (lookup "content" items) as [content|]; simpl; [|reflexivity].
  destruct (contains "parts" content) as [[|]|]; simpl;
    [|now rewrite app_nil_r|reflexivity].
  destruct (getitem content "parts") as [parts|]; simpl; [|reflexivity].
  destruct (iter parts) as [ps|]; simpl; [|reflexivity].
  apply (for_each_shift process_part process_part_acc).
Qed.

(** X1. Streams compose: the normaliser on two streams one after the other
    returns the two lists one after the other, and raises what the first
    raises, else what the second raises. *)
Theorem normaliser_on_concatenation (first second : list value) :
  process_stream_response (first ++ second)
  = (out1 <- process_stream_response first ;;
     out2 <- process_stream_response second ;;
     Ok (out1 ++ out2)).
Proof.
  unfold process_stream_response. rewrite for_each_app.
  destruct (for_each process_event first []) as [out1|e]; simpl; [|reflexivity].
  apply (for_each_shift process_event process_event_acc).
Qed.

(** X2. An event that is no dict is passed over, wherever it stands in the
    stream: the result, value or exception, is that of the stream without
    it. *)
Theorem non_dict_event_skipped (event : value) (before after : list value) :
  is_dict event = false ->
  process_stream_response (before ++ event :: after)
  = process_stream_response (before ++ after).
Proof.
  intros N. unfold process_stream_response. rewrite !for_each_app.
  destruct (for_each process_event before []) as [acc|]; simpl; [|reflexivity].
  destruct event; try reflexivity. discriminate N.
Qed.

Lemma non_dict_event_skipped_witness :
  process_stream_response
    ([VDict [("content", VDict [("parts", VList [VDict [("text", VStr "a")]])])]]
       ++ VList [VStr "content"] :: [VNone])
  = process_stream_response
      ([VDict [("content", VDict [("parts", VList [VDict [("text", VStr "a")]])])]]
         ++ [VNone]).
Proof. apply non_dict_event_skipped. reflexivity. Defined.

(** On shaped tuples the loop prints the lines of each tuple: two for a
    function call, one for anything else. *)
Lemma display_loop_lines ts :
  Forall shaped ts ->
  forall out,
    snd (display_loop ts out) = None
    /\ length (fst (display_loop ts out))
       = length out + list_sum (map lines_for ts).
Proof.
  induction 1 as [|[tag content] ts Ht _ IH]; intros out; simpl.
  - split; [reflexivity | lia].
  - destruct Ht as [(Htag & s & Hs) | [(Htag & name & args & Hc) | Htag]];
      simpl in *; subst; simpl.
    + destruct (IH (out ++ [[Lit "Response: "; Lit s]])) as [E L].
      split; [exact E|]. rewrite L, length_app. simpl. unfold lines_for. simpl. lia.
    + destruct (IH ((out ++ [[Lit "Function Call: "; render name]])
                      ++ [[Lit "  Args: "; render args]])) as [E L].
      split; [exact E|]. rewrite L, !length_app. simpl. unfold lines_for. simpl. lia.
    + destruct (IH (out ++ [[Lit "Other part: "; render content]])) as [E L].
      split; [exact E|]. rewrite L, length_app. simpl. unfold lines_for. simpl. lia.
Qed.

(** X3. What is printed for a list the normaliser returned: one line for
    the empty list, else two lines per function call and one line per other
    tuple. *)
Theorem display_line_count (stream_events : list value) (out : list tagged) :
  process_stream_response stream_events = Ok out ->
  length (fst (display_response_parts out))
  = match out with
    | [] => 1
    | _ :: _ => list_sum (map lines_for out)
    end.
Proof.
  intros Hrun. apply output_shaped in Hrun.
  destruct out as [|t out]; [reflexivity|].
  unfold display_response_parts.
  destruct (display_loop_lines (t :: out) Hrun []) as [_ L]. exact L.
Qed.

Lemma display_line_count_witness :
  length
    (fst (display_response_parts
            [ ("text", VStr "hi");
              ("function_call",
               VDict [("name", VStr "unknown"); ("args", VDict [])]) ]))
  = 3.
Proof.
  apply (display_line_count
           [ VDict [ ("content",
                      VDict [ ("parts",
                               VList [ VDict [("text", VStr "hi")];
                                       VDict [("function_call", VDict [])] ]) ]) ] ]).
  reflexivity.
Defined.

Lemma display_loop_app pre :
  Forall shaped pre ->
  forall rest out,
    display_loop (pre ++ rest) out
    = display_loop rest (fst (display_loop pre out)).
Proof.
  induction 1 as [|[tag content] ts Ht _ IH]; intros rest out; simpl;
    [reflexivity|].
  destruct Ht as [(Htag & s & Hs) | [(Htag & name & args & Hc) | Htag]];
    simpl in *; subst; simpl; apply IH.
Qed.

(** X4. The display routine stops at a function-call tuple whose content
    gives no [name]: the tuples before it have been printed, nothing is
    printed for it or after it, and the exception of the lookup leaves the
    function. *)
Theorem display_stops_at_nameless_call
    (before after : list tagged) (content : value) (e : exn) :
  Forall shaped before ->
  getitem content "name" = Raise e ->
  display_response_parts (before ++ ("function_call", content) :: after)
  = (fst (display_loop before []), Some e).
Proof.
  intros F G.
  assert (E : display_response_parts (before ++ ("function_call", content) :: after)
              = display_loop (before ++ ("function_call", content) :: after) []).
  { destruct before; reflexivity. }
  rewrite E, (display_loop_app before F). simpl. now rewrite G.
Qed.

Lemma display_stops_at_nameless_call_witness :
  display_response_parts
    ([("text", VStr "hi")]
       ++ ("function_call", VDict [("args", VDict [])]) :: [("text", VStr "bye")])
  = (fst (display_loop [("text", VStr "hi")] []), Some KeyError).
Proof.
  apply display_stops_at_nameless_call; [|reflexivity].
  constructor; [|constructor]. left. simpl. eauto.
Defined.

End NormaliserMore.

(** ** More on the lookup tools *)

Section ToolsMore.
Import Py AdkAgent Spec.

Lemma lower_char_idempotent c : lower_char (lower_char c) = lower_char c.
Proof.
  destruct c as [[|] [|] [|] [|] [|] [|] [|] [|]]; reflexivity.
Qed.

Lemma lower_idempotent s : lower (lower s) = lower s.
Proof.
  induction s as [|c s IH]; simpl; [reflexivity|].
  now rewrite lower_char_idempotent, IH.
Qed.

Lemma weather_status city :
  field "status" (get_weather city)
  = Some (VStr (if in_dec string_dec (lower city) supported_cities
                then "success" else "error")).
Proof.
  unfold get_weather.
  destruct (in_dec string_dec (lower city) supported_cities) as [I|N].
  - rewrite <- weather_keys in I. destruct (table_get_some _ _ I) as (w & ->).
    reflexivity.
  - rewrite <- weather_keys in N. apply table_get_none in N. now rewrite N.
Qed.

Lemma time_status now city :
  field "status" (get_current_time now city)
  = Some (VStr (if in_dec string_dec (lower city) supported_cities
                then "success" else "error")).
Proof.
  unfold get_current_time.
  destruct (in_dec string_dec (lower city) supported_cities) as [I|N].
  - rewrite <- timezone_keys in I. destruct (table_get_some _ _ I) as (w & ->).
    reflexivity.
  - rewrite <- timezone_keys in N. apply table_get_none in N. now rewrite N.
Qed.

(** X5. The two tools know the same cities: for every city and every
    reading of the clock, [get_weather] and [get_current_time] return the
    same [status]. *)
Theorem tools_agree_on_cities (now : clock) (city : string) :
  field "status" (get_weather city)
  = field "status" (get_current_time now city).
Proof. now rewrite weather_status, time_status. Qed.

(** X6. The lookups do not see the case of the city: a city and its
    lowercase form get the same [status] from either tool, and in the
    weather report only the echoed name differs. *)
Theorem lookup_ignores_case (now : clock) (city : string) :
  field "status" (get_weather (lower city)) = field "status" (get_weather city)
  /\ field "status" (get_current_time now (lower city))
     = field "status" (get_current_time now city)
  /\ (forall weather,
        field "report" (get_weather city)
        = Some (VStr ("The weather in " ^^ city ^^ " is " ^^ weather ^^ ".")) ->
        field "report" (get_weather (lower city))
        = Some (VStr ("The weather in " ^^ lower city ^^ " is " ^^ weather ^^ "."))).
Proof.
  split; [|split].
  - now rewrite !weather_status, lower_idempotent.
  - now rewrite !time_status, lower_idempotent.
  - intros weather. unfold get_weather. rewrite lower_idempotent.
    destruct (table_get (lower city) mock_weather_data) as [w|]; simpl;
      [|discriminate].
    intros [= E]. repeat f_equal.
    assert (A : forall a b c : string, a ^^ b = a ^^ c -> b = c).
    { induction a; simpl; intros b c H; [assumption|].
      injection H as H. now apply IHa. }
    apply A in E. simpl in E. injection E as E.
    assert (B : forall b c : string, b ^^ "." = c ^^ "." -> b = c).
    { induction b as [|x b IH]; destruct c as [|y c]; simpl; intros H;
        try reflexivity.
      - destruct c; discriminate H.
      - destruct b; discriminate H.
      - injection H as -> H. f_equal. now apply IH. }
    apply B in E. now subst.
Qed.

Lemma lookup_ignores_case_witness :
  field "report" (get_weather (lower "Dubai"))
  = Some (VStr ("The weather in " ^^ lower "Dubai" ^^ " is "
                ^^ "hot and sunny with a temperature of 35 degrees Celsius (95 degrees Fahrenheit)"
                ^^ ".")).
Proof.
  apply (proj2 (proj2 (lookup_ignores_case Scenario.midnight "Dubai"))).
  reflexivity.
Defined.

End ToolsMore.

(** ** More on the invocation script *)

Section InvocationMore.
Import Py InvokeDeployed.

(** X7. The name that is tested.  Whenever the [__main__] block calls
    [test_deployed_agent], the name it passes is not empty and is the value
    of [--id] or, without the flag, the name built from the environment; an
    empty value given to [--id] is not replaced by that default, the script
    exits with status 1. *)
Theorem tested_name (env : environ) (flag : option string) :
  (forall name,
     main env flag = TestDeployedAgent name ->
     name <> ""
     /\ (flag = Some name
         \/ (flag = None /\ default_resource_name env = Some name)))
  /\ (flag = Some "" -> exists stdout, main env flag = Exit 1 stdout).
Proof.
  split.
  - intros name. unfold main, parse_id.
    destruct flag as [[|c f]|]; simpl; try discriminate.
    + intros [= <-]. split; [discriminate | now left].
    + destruct (default_resource_name env) as [[|c d]|]; simpl;
        try discriminate.
      intros [= <-]. split; [discriminate | now right].
  - intros ->. eexists. reflexivity.
Qed.

Lemma tested_name_witness :
  exists stdout, main Scenario.full_env (Some "") = Exit 1 stdout.
Proof. apply (proj2 (tested_name Scenario.full_env (Some ""))). reflexivity. Defined.

End InvocationMore.

(** ** More on the registration with Agentspace *)

Section RegistrationMore.
Import Py DeployToAgentspace Spec Reading.

Lemma token_is_usable_nonempty_aux (w : world) (token : string) :
  snd (get_access_token w) = Some token -> token <> "".
Proof.
  unfold get_access_token, access_token_adc.
  destruct (gcloud w) as [stdout|e|].
  - destruct (strip stdout) as [|c t]; simpl.
    + destruct (adc w) as [[[|c t]|]|e]; simpl; try discriminate.
      intros [= <-]. discriminate.
    + intros [= <-]. discriminate.
  - destruct (adc w) as [[[|c t]|]|e']; simpl; try discriminate.
    intros [= <-]. discriminate.
  - destruct (adc w) as [[[|c t]|]|e']; simpl; try discriminate.
    intros [= <-]. discriminate.
Qed.

(** X8. The token [get_access_token] returns is never empty, and it is
    either the output of [gcloud] trimmed of surrounding whitespace, or,
    when [gcloud] failed or printed only whitespace, the token of the
    default credentials. *)
Theorem token_is_usable (w : world) (token : string) :
  snd (get_access_token w) = Some token ->
  token <> ""
  /\ ((exists stdout,
         gcloud w = Completed stdout /\ token = strip stdout
         /\ trimmed stdout token)
      \/ (gcloud_gave_nothing (gcloud w) /\ adc w = Refreshed (Some token))).
Proof.
  assert (A : forall tok, snd (access_token_adc w) = Some tok ->
                          tok <> "" /\ adc w = Refreshed (Some tok)).
  { unfold access_token_adc. intros tok.
    destruct (adc w) as [[[|c t]|]|e]; simpl; try discriminate.
    intros [= <-]. split; [discriminate | reflexivity]. }
  unfold get_access_token.
  destruct (gcloud w) as [stdout|e|] eqn:G.
  - destruct (strip stdout) as [|c t] eqn:S; simpl.
    + intros H. apply A in H as [N R]. split; [assumption|]. right.
      split; [exact S | assumption].
    + intros [= <-]. split; [discriminate|]. left. exists stdout.
      repeat split; auto; rewrite <- S; apply strip_trimmed.
  - destruct (access_token_adc w) as [log tok] eqn:E. simpl. intros ->.
    destruct (A token) as [N R]; [reflexivity|].
    split; [assumption|]. right. split; [exact I | assumption].
  - destruct (access_token_adc w) as [log tok] eqn:E. simpl. intros ->.
    destruct (A token) as [N R]; [reflexivity|].
    split; [assumption|]. right. split; [exact I | assumption].
Qed.

Lemma token_is_usable_witness :
  "adc-token" <> ""
  /\ ((exists stdout,
         gcloud (Runs.adc_only (fun _ => PostRaised Timeout "")) = Completed stdout
         /\ "adc-token" = strip stdout /\ trimmed stdout "adc-token")
      \/ (gcloud_gave_nothing (gcloud (Runs.adc_only (fun _ => PostRaised Timeout "")))
          /\ adc (Runs.adc_only (fun _ => PostRaised Timeout ""))
             = Refreshed (Some "adc-token"))).
Proof. apply token_is_usable. reflexivity. Defined.

Lemma handle_logs_error x : existsb is_error (fst (handle x)) = true.
Proof. destruct x as [[| |] e | e]; reflexivity. Qed.

Lemma on_success_failure_logged r :
  snd (on_success r) = false -> existsb is_error (fst (on_success r)) = true.
Proof.
  unfold on_success.
  assert (H : forall x (log : list record),
             existsb is_error
               (fst (let (l, ret) := handle x in (log ++ l, ret))) = true).
  { intros x log. pose proof (handle_logs_error x) as E.
    destruct (handle x) as [l ret]. simpl in *.
    rewrite existsb_app, E. apply orb_true_r. }
  destruct (json r) as [v | c e]; [|intros _; apply H].
  destruct (contains "name" v) as [[|]|e]; [| discriminate | intros _; apply H].
  destruct (getitem v "name") as [x|e]; [discriminate | intros _; apply H].
Qed.

(** The run of [deploy_to_agentspace] once a token is there and the POST
    was answered: the records of the token, the six lines of the request,
    then the branch of the status. *)
Lemma deploy_run_answered w project_id app_id adk_deployment_id adk_location
    token r :
  snd (get_access_token w) = Some token -> token <> "" ->
  post w (build_request token project_id app_id adk_deployment_id adk_location)
  = Responded r ->
  exists log1,
    deploy_to_agentspace w project_id app_id adk_deployment_id adk_location
    = (log1 ++ fst (if ((status_code r =? 200) || (status_code r =? 201))%Z
                    then on_success r
                    else on_failure r project_id app_id),
       snd (if ((status_code r =? 200) || (status_code r =? 201))%Z
            then on_success r
            else on_failure r project_id app_id)).
Proof.
  intros T N P. unfold deploy_to_agentspace.
  destruct (get_access_token w) as [log0 tok]. simpl in T. subst tok.
  destruct token as [|c0 t0]; [congruence|]. cbn [truthy negb fmt].
  rewrite P. eexists.
  destruct (if ((status_code r =? 200) || (status_code r =? 201))%Z
            then on_success r else on_failure r project_id app_id)
    as [log ret]. reflexivity.
Qed.

(** X9. No silent failure: whenever [deploy_to_agentspace] returns [False]
    it has logged at least one record of level ERROR. *)
Theorem failure_is_logged (w : world)
    (project_id app_id adk_deployment_id adk_location : option string) :
  snd (deploy_to_agentspace w project_id app_id adk_deployment_id adk_location)
  = false ->
  existsb is_error
    (fst (deploy_to_agentspace w project_id app_id adk_deployment_id
            adk_location)) = true.
Proof.
  destruct (snd (get_access_token w)) as [[|c0 t0]|] eqn:T.
  - intros _. unfold deploy_to_agentspace.
    destruct (get_access_token w) as [log0 tok]. simpl in T. subst tok. simpl.
    rewrite existsb_app. simpl. apply orb_true_r.
  - set (token := String c0 t0) in *.
    assert (N : token <> "") by discriminate.
    destruct (post w (build_request token project_id app_id adk_deployment_id
                        adk_location)) as [r | c e] eqn:P.
    + destruct (deploy_run_answered w _ _ _ _ token r T N P) as (log1 & ->).
      cbn [fst snd]. intros F. rewrite existsb_app.
      destruct ((status_code r =? 200) || (status_code r =? 201))%Z.
      * rewrite (on_success_failure_logged r F). apply orb_true_r.
      * simpl. apply orb_true_r.
    + intros _. unfold deploy_to_agentspace.
      destruct (get_access_token w) as [log0 tok]. simpl in T. subst tok.
      cbn [truthy negb fmt]. fold token. rewrite P.
      pose proof (handle_logs_error (External c e)) as E.
      destruct (handle (External c e)) as [l ret]. simpl in *.
      rewrite !existsb_app, E. simpl. now rewrite !orb_true_r.
  - intros _. unfold deploy_to_agentspace.
    destruct (get_access_token w) as [log0 tok]. simpl in T. subst tok. simpl.
    rewrite existsb_app. simpl. apply orb_true_r.
Qed.

Lemma failure_is_logged_witness :
  existsb is_error
    (fst (deploy_to_agentspace (Scenario.answering 500)
            (Some "demo-project") (Some "demo-app") (Some "4242")
            (Some "europe-west1"))) = true.
Proof. apply failure_is_logged. reflexivity. Defined.

(** X10. No request without a token: when neither [gcloud] nor the default
    credentials give a token, what [deploy_to_agentspace] logs and returns
    is the same whatever the endpoint would answer. *)
Theorem no_request_without_token (w w' : world)
    (project_id app_id adk_deployment_id adk_location : option string) :
  gcloud w = gcloud w' -> adc w = adc w' ->
  truthy (snd (get_access_token w)) = false ->
  deploy_to_agentspace w project_id app_id adk_deployment_id adk_location
  = deploy_to_agentspace w' project_id app_id adk_deployment_id adk_location
  /\ snd (deploy_to_agentspace w project_id app_id adk_deployment_id
            adk_location) = false.
Proof.
  intros G A T.
  assert (E : get_access_token w = get_access_token w').
  { unfold get_access_token, access_token_adc. now rewrite G, A. }
  unfold deploy_to_agentspace. rewrite <- E.
  destruct (get_access_token w) as [log0 tok]. simpl in T. rewrite T. simpl.
  split; reflexivity.
Qed.

Lemma no_request_without_token_witness :
  deploy_to_agentspace (Runs.no_credentials (fun _ => Responded Runs.created))
    (Some "demo-project") (Some "demo-app") (Some "4242") (Some "europe-west1")
  = deploy_to_agentspace (Runs.no_credentials (fun _ => PostRaised Timeout ""))
      (Some "demo-project") (Some "demo-app") (Some "4242") (Some "europe-west1")
  /\ snd (deploy_to_agentspace
            (Runs.no_credentials (fun _ => Responded Runs.created))
            (Some "demo-project") (Some "demo-app") (Some "4242")
            (Some "europe-west1")) = false.
Proof. apply no_request_without_token; reflexivity. Defined.

(** X11. [deploy_to_agentspace] returns [True] only when a token was found
    and the POST was answered with status 200 or 201. *)
Theorem true_only_after_200_or_201 (w : world)
    (project_id app_id adk_deployment_id adk_location : option string) :
  snd (deploy_to_agentspace w project_id app_id adk_deployment_id adk_location)
  = true ->
  exists token r,
    snd (get_access_token w) = Some token /\ token <> ""
    /\ post w (build_request token project_id app_id adk_deployment_id
                 adk_location) = Responded r
    /\ (status_code r = 200 \/ status_code r = 201)%Z.
Proof.
  intros R.
  destruct (deploy_true_only_on_success w _ _ _ _ R) as (token & r & T & P & S & _).
  exists token, r. repeat split; try assumption.
  apply (token_is_usable_nonempty_aux w token T).
Qed.

End RegistrationMore.

Section RegistrationOutcomes.
Import Py DeployToAgentspace Spec Reading.

Lemma true_only_after_200_or_201_witness :
  exists token r,
    snd (get_access_token (Scenario.answering 201)) = Some token /\ token <> ""
    /\ post (Scenario.answering 201)
         (build_request token (Some "demo-project") (Some "demo-app")
            (Some "4242") (Some "europe-west1")) = Responded r
    /\ (status_code r = 200 \/ status_code r = 201)%Z.
Proof. apply true_only_after_200_or_201. reflexivity. Defined.

(** X12. A registration that is refused.  With a token at hand, a response
    whose status is neither 200 nor 201 makes [deploy_to_agentspace] return
    [False] after logging the status, the body of the response and the
    guidance of the status; an exception of the request makes it return
    [False] as well. *)
Theorem refused_registration (w : world)
    (project_id app_id adk_deployment_id adk_location : option string)
    (token : string) :
  snd (get_access_token w) = Some token -> token <> "" ->
  let run := deploy_to_agentspace w project_id app_id adk_deployment_id
               adk_location in
  (forall r,
     post w (build_request token project_id app_id adk_deployment_id
               adk_location) = Responded r ->
     (status_code r <> 200)%Z -> (status_code r <> 201)%Z ->
     snd run = false
     /\ In (ERROR, [Lit "✗ Deployment failed with status code: ";
                    Number (status_code r)]) (fst run)
     /\ In (ERROR, [Lit "Response: "; Lit (body r)]) (fst run)
     /\ incl (guidance (status_code r) project_id app_id) (fst run))
  /\ (forall c e,
        post w (build_request token project_id app_id adk_deployment_id
                  adk_location) = PostRaised c e ->
        snd run = false).
Proof.
  intros T N. cbv zeta. split.
  - intros r P N1 N2.
    destruct (deploy_run_answered w _ _ _ _ token r T N P) as (log1 & ->).
    apply Z.eqb_neq in N1, N2. rewrite N1, N2. cbn [orb on_failure fst snd].
    repeat split.
    + apply in_or_app. right. simpl. tauto.
    + apply in_or_app. right. simpl. tauto.
    + intros x I. apply in_or_app. right. apply in_or_app. now right.
  - intros c e P. apply (deploy_post_raised w _ _ _ _ token c e T P).
Qed.

Lemma refused_registration_witness :
  snd (deploy_to_agentspace (Scenario.answering 403)
         (Some "demo-project") (Some "demo-app") (Some "4242")
         (Some "europe-west1")) = false
  /\ In (ERROR, [Lit "✗ Deployment failed with status code: "; Number 403])
        (fst (deploy_to_agentspace (Scenario.answering 403)
                (Some "demo-project") (Some "demo-app") (Some "4242")
                (Some "europe-west1")))
  /\ In (ERROR, [Lit "Response: "; Lit "{}"])
        (fst (deploy_to_agentspace (Scenario.answering 403)
                (Some "demo-project") (Some "demo-app") (Some "4242")
                (Some "europe-west1")))
  /\ incl (guidance 403 (Some "demo-project") (Some "demo-app"))
          (fst (deploy_to_agentspace (Scenario.answering 403)
                  (Some "demo-project") (Some "demo-app") (Some "4242")
                  (Some "europe-west1"))).
Proof.
  apply (proj1 (refused_registration (Scenario.answering 403)
                  (Some "demo-project") (Some "demo-app") (Some "4242")
                  (Some "europe-west1") "ya" eq_refl ltac:(discriminate))
           {| status_code := 403; body := "{}"; json := Json (VDict []) |});
    [reflexivity | discriminate | discriminate].
Defined.

(** X13. Guidance by status: 400, 403 and 404 each have guidance, all of it
    at level ERROR and different from one status to the other; any other
    status has none. *)
Theorem guidance_by_status (project_id app_id : option string) :
  (forall code, forallb is_error (guidance code project_id app_id) = true)
  /\ (forall code,
        guidance code project_id app_id <> []
        <-> (code = 400 \/ code = 403 \/ code = 404)%Z)
  /\ guidance 400 project_id app_id <> guidance 403 project_id app_id
  /\ guidance 400 project_id app_id <> guidance 404 project_id app_id
  /\ guidance 403 project_id app_id <> guidance 404 project_id app_id.
Proof.
  destruct (guidance_distinct project_id app_id)
    as (G400 & G403 & G404 & D1 & D2 & D3 & Other).
  repeat split; try assumption.
  - intros code. unfold guidance.
    destruct (code =? 404)%Z; [reflexivity|].
    destruct (code =? 403)%Z; [reflexivity|].
    destruct (code =? 400)%Z; reflexivity.
  - intros H.
    destruct (Z.eq_dec code 400) as [|N1]; [tauto|].
    destruct (Z.eq_dec code 403) as [|N2]; [tauto|].
    destruct (Z.eq_dec code 404) as [|N3]; [tauto|].
    exfalso. apply H. now apply Other.
  - intros [-> | [-> | ->]]; assumption.
Qed.

(** X14. A registration that is accepted.  With a token at hand, a response
    with status 200 or 201 whose body decodes to a JSON object makes
    [deploy_to_agentspace] return [True]; the object is logged, and so is
    its [name] when it has one. *)
Theorem accepted_registration (w : world)
    (project_id app_id adk_deployment_id adk_location : option string)
    (token : string) (r : response) (agent_data : list (string * value)) :
  snd (get_access_token w) = Some token -> token <> "" ->
  post w (build_request token project_id app_id adk_deployment_id adk_location)
  = Responded r ->
  (status_code r = 200 \/ status_code r = 201)%Z ->
  json r = Json (VDict agent_data) ->
  let run := deploy_to_agentspace w project_id app_id adk_deployment_id
               adk_location in
  snd run = true
  /\ In (INFO, [Lit "Response: "; Dump (VDict agent_data)]) (fst run)
  /\ (forall name,
        lookup "name" agent_data = Some name ->
        In (INFO, [Lit "Agent resource name: "; render name]) (fst run)).
Proof.
  intros T N P S J. cbv zeta.
  destruct (deploy_run_answered w _ _ _ _ token r T N P) as (log1 & ->).
  assert (Sb : ((status_code r =? 200) || (status_code r =? 201))%Z = true).
  { destruct S as [-> | ->]; reflexivity. }
  rewrite Sb. cbn [fst snd]. unfold on_success. rewrite J. simpl. unfold mem.
  destruct (lookup "name" agent_data) as [x|] eqn:L; simpl.
  - repeat split.
    + apply in_or_app. right. simpl. tauto.
    + intros name [= <-]. apply in_or_app. right. simpl. tauto.
  - repeat split.
    + apply in_or_app. right. simpl. tauto.
    + discriminate.
Qed.

Lemma accepted_registration_witness :
  snd (deploy_to_agentspace (Runs.adc_only (fun _ => Responded Runs.created))
         (Some "demo-project") (Some "demo-app") (Some "4242")
         (Some "europe-west1")) = true
  /\ In (INFO, [Lit "Response: "; Dump (VDict [("name", VStr "projects/p/agents/1")])])
        (fst (deploy_to_agentspace
                (Runs.adc_only (fun _ => Responded Runs.created))
                (Some "demo-project") (Some "demo-app") (Some "4242")
                (Some "europe-west1")))
  /\ (forall name,
        lookup "name" [("name", VStr "projects/p/agents/1")] = Some name ->
        In (INFO, [Lit "Agent resource name: "; render name])
           (fst (deploy_to_agentspace
                   (Runs.adc_only (fun _ => Responded Runs.created))
                   (Some "demo-project") (Some "demo-app") (Some "4242")
                   (Some "europe-west1")))).
Proof.
  apply (accepted_registration
           (Runs.adc_only (fun _ => Responded Runs.created))
           (Some "demo-project") (Some "demo-app") (Some "4242")
           (Some "europe-west1") "adc-token" Runs.created
           [("name", VStr "projects/p/agents/1")]);
    try reflexivity; [discriminate | now left].
Defined.

(** X15. The two scripts name the same engine.  When [PROJECT_ID],
    [LOCATION] and [ADK_DEPLOYMENT_ID] are set, the reasoning engine that
    [deploy_to_agentspace.py] registers in its payload is the resource name
    that [invoke_adk_agent_deployed.py] tests by default. *)
Theorem registered_engine_is_tested (env : environ) (token name : string) :
  InvokeDeployed.default_resource_name env = Some name ->
  deep_field
    ["adk_agent_definition"; "provisioned_reasoning_engine"; "reasoning_engine"]
    (payload (build_request token (PROJECT_ID env) (APP_ID env)
                (ADK_DEPLOYMENT_ID env) (LOCATION env)))
  = Some (VStr name).
Proof.
  unfold InvokeDeployed.default_resource_name.
  destruct (truthy (PROJECT_ID env) && truthy (LOCATION env)
            && truthy (ADK_DEPLOYMENT_ID env)); [|discriminate].
  intros [= <-]. reflexivity.
Qed.

Lemma registered_engine_is_tested_witness :
  deep_field
    ["adk_agent_definition"; "provisioned_reasoning_engine"; "reasoning_engine"]
    (payload (build_request "ya" (PROJECT_ID Scenario.full_env)
                (APP_ID Scenario.full_env)
                (ADK_DEPLOYMENT_ID Scenario.full_env)
                (LOCATION Scenario.full_env)))
  = Some (VStr "projects/demo-project/locations/europe-west1/reasoningEngines/4242").
Proof. apply registered_engine_is_tested. reflexivity. Defined.

End RegistrationOutcomes.

(** ** More on the deployment to Agent Engine *)

Section EngineMore.
Import Py DeployAdkAgent Spec Reading.

Lemma lstrip_fixed s :
  (forall c, first_char s = Some c -> is_space c = false) -> lstrip s = s.
Proof.
  destruct s as [|c s]; simpl; [reflexivity|].
  intros H. now rewrite (H c eq_refl).
Qed.

Lemma rstrip_fixed s :
  (forall c, last_char s = Some c -> is_space c = false) -> rstrip s = s.
Proof.
  induction s as [|c s IH]; [reflexivity|].
  intros H. simpl. destruct s as [|c' s'].
  - simpl. simpl in H. now rewrite (H c eq_refl).
  - rewrite IH; [reflexivity|]. intros x Hx. apply H. exact Hx.
Qed.

Lemma strip_idempotent s : strip (strip s) = strip s.
Proof.
  destruct (strip_trimmed s) as (_ & F & L).
  unfold strip at 1. rewrite (lstrip_fixed _ F). now apply rstrip_fixed.
Qed.

(** X16. The requirements read from [uv export] are its lines trimmed, the
    blank ones left out: each requirement is the trimmed form of a line of
    the output, is not empty and has no surrounding whitespace, and there
    are no more requirements than lines. *)
Theorem requirements_are_trimmed (w : world) (stdout_lines : list string) :
  uv_export w = Exported stdout_lines ->
  exists requirements,
    snd (generate_requirements w) = inr requirements
    /\ Forall (fun r => r <> "" /\ strip r = r
                        /\ exists line, In line stdout_lines /\ r = strip line)
         requirements
    /\ length requirements <= length stdout_lines.
Proof.
  intros E. unfold generate_requirements. rewrite E. simpl.
  eexists. split; [reflexivity|]. split.
  - apply Forall_forall. intros r I. apply in_map_iff in I as (line & <- & I).
    apply filter_In in I as [I T]. repeat split.
    + intros Z. rewrite Z in T. discriminate T.
    + apply strip_idempotent.
    + eauto.
  - rewrite length_map. apply filter_length_le.
Qed.

Lemma requirements_are_trimmed_witness :
  exists requirements,
    snd (generate_requirements Scenario.engine_up) = inr requirements
    /\ Forall (fun r => r <> "" /\ strip r = r
                        /\ exists line,
                             In line ["google-adk==1.4.2"; ""]
                             /\ r = strip line)
         requirements
    /\ length requirements <= length ["google-adk==1.4.2"; ""].
Proof. apply requirements_are_trimmed. reflexivity. Defined.

(** X17. [generate_requirements] returns the empty list exactly when
    [uv export] succeeded with nothing but blank lines; after a
    [CalledProcessError] it returns its six fallback requirements, never the
    empty list. *)
Theorem empty_requirements (w : world) :
  (snd (generate_requirements w) = inr []
   <-> exists stdout_lines,
         uv_export w = Exported stdout_lines
         /\ Forall (fun line => strip line = "") stdout_lines)
  /\ (forall e stderr,
        uv_export w = UvCalledProcessError e stderr ->
        exists requirements,
          snd (generate_requirements w) = inr requirements
          /\ length requirements = 6).
Proof.
  unfold generate_requirements. split.
  - destruct (uv_export w) as [lines | e stderr | e]; simpl.
    + split.
      * intros [= H]. exists lines. split; [reflexivity|].
        apply map_eq_nil in H. apply Forall_forall. intros line I.
        destruct (strip line) as [|c t] eqn:S; [reflexivity|].
        exfalso.
        match type of H with
        | filter ?f _ = [] =>
            assert (X : In line (filter f lines))
              by (apply filter_In; split; [assumption | now rewrite S])
        end.
        rewrite H in X. contradiction.
      * intros (lines' & [= <-] & F). f_equal.
        induction F as [|l ls Hl _ IH]; simpl; [reflexivity|].
        now rewrite Hl.
    + split; [discriminate|]. intros (lines & H & _). discriminate H.
    + split; [discriminate|]. intros (lines & H & _). discriminate H.
  - intros e stderr ->. simpl. eexists. split; reflexivity.
Qed.

Lemma no_slash_prefix c s :
  is_infix "/" (String c s) = (Ascii.eqb c "/" || is_infix "/" s)%bool.
Proof.
  change (is_infix "/" (String c s))
    with (if String.prefix "/" (String c s) then true else is_infix "/" s).
  change (String.prefix "/" (String c s))
    with (if ascii_dec "/" c then String.prefix "" s else false).
  destruct (ascii_dec "/" c) as [<-|N].
  - destruct s; reflexivity.
  - destruct (Ascii.eqb_spec c "/") as [->|_]; [congruence | reflexivity].
Qed.

Lemma last_segment_no_slash s : no_slash (last_segment s).
Proof.
  unfold no_slash. induction s as [|c s IH]; [reflexivity|].
  simpl last_segment. destruct (is_infix "/" s) eqn:I; [assumption|].
  destruct (Ascii.eqb c "/") eqn:C; [assumption|].
  now rewrite no_slash_prefix, C, I.
Qed.

(** X18. [last_segment], the resource id logged after a deployment, is what
    follows the last slash of the resource name: it holds no slash, and
    the name is the id after a prefix that is empty when the name has no
    slash and ends with a slash otherwise. *)
Theorem last_segment_follows_last_slash (s : string) :
  no_slash (last_segment s)
  /\ exists prefix,
       s = prefix ^^ last_segment s
       /\ (if is_infix "/" s then ends_with_slash prefix else prefix = "").
Proof.
  split; [apply last_segment_no_slash|].
  induction s as [|c s (prefix & E & P)].
  - exists "". split; reflexivity.
  - rewrite no_slash_prefix. simpl last_segment.
    destruct (is_infix "/" s) eqn:I.
    + exists (String c prefix). rewrite orb_true_r. split.
      * simpl. now rewrite <- E.
      * unfold ends_with_slash in *. destruct prefix; [discriminate P|].
        exact P.
    + subst prefix. simpl in E.
      destruct (Ascii.eqb_spec c "/") as [->|N]; simpl.
      * exists "/". split; reflexivity.
      * exists "". split; reflexivity.
Qed.

Lemma test_logs_no_error app : existsb is_error (test_deployed app) = false.
Proof.
  unfold test_deployed.
  destruct (create_session app) as [e | session]; [reflexivity|].
  destruct (getitem session "id") as [id | e]; [|reflexivity].
  destruct (failure (stream_query app id)); [reflexivity|].
  destruct (events (stream_query app id)); reflexivity.
Qed.

(** X19. The test query decides nothing.  Once [agent_engines.create] has
    returned, [deploy_agent] returns the resource name of the application
    whatever becomes of the test session and the test query, whose failures
    are logged below level ERROR. *)
Theorem test_query_decides_nothing (env : environ) (w : world)
    (packages : list string) (app : remote_app) :
  snd (generate_requirements w) = inr packages ->
  create w {| requirements := packages;
              display_name := "Weather Time Agent";
              description := "An ADK agent that provides weather and time information";
              extra_packages := ["./agentspace_demo_agent"];
              env_vars := [ ("PROJECT_ID", PROJECT_ID env);
                            ("LOCATION", LOCATION env) ] |} = inr app ->
  snd (deploy_agent env w) = Some (resource_name app)
  /\ incl (test_deployed app) (fst (deploy_agent env w))
  /\ existsb is_error (test_deployed app) = false.
Proof.
  intros G C. unfold deploy_agent.
  destruct (generate_requirements w) as [log1 generated]. simpl in G.
  subst generated. rewrite C. cbn [fst snd]. repeat split.
  - intros x I. apply in_or_app. right. apply in_or_app. now right.
  - apply test_logs_no_error.
Qed.

Lemma test_query_decides_nothing_witness :
  snd (deploy_agent Scenario.full_env Runs.engine_without_sessions)
  = Some (resource_name Runs.sessionless_app)
  /\ incl (test_deployed Runs.sessionless_app)
          (fst (deploy_agent Scenario.full_env Runs.engine_without_sessions))
  /\ existsb is_error (test_deployed Runs.sessionless_app) = false.
Proof.
  apply (test_query_decides_nothing Scenario.full_env
           Runs.engine_without_sessions
           [ "google-cloud-aiplatform[adk,agent_engines]==1.95.1";
             "google-adk==1.4.2";
             "vertexai>=1.43.0";
             "cloudpickle==3.1.1";
             "pydantic==2.11.3";
             "pytz>=2024.1" ]);
    reflexivity.
Defined.

(** X20. A deployment that fails is reported.  [deploy_agent] returns no
    resource name only when [uv export] raised something other than
    [CalledProcessError] or [agent_engines.create] raised; it has then
    logged records of level ERROR, and [main] exits with status 1. *)
Theorem failed_deployment_reported (env : environ) (w : world) :
  snd (deploy_agent env w) = None ->
  ((exists e, uv_export w = UvRaised e)
   \/ (exists request e, create w request = inl e))
  /\ existsb is_error (fst (deploy_agent env w)) = true
  /\ snd (main env w) = 1%Z.
Proof.
  intros N. split; [|split].
  - revert N. unfold deploy_agent, generate_requirements.
    destruct (uv_export w) as [lines | e stderr | e]; simpl.
    + match goal with |- context [create w ?r] =>
        destruct (create w r) as [e | app] eqn:C end;
        [right; eauto | discriminate].
    + match goal with |- context [create w ?r] =>
        destruct (create w r) as [e' | app] eqn:C end;
        [right; eauto | discriminate].
    + left. eauto.
  - revert N. unfold deploy_agent.
    destruct (generate_requirements w) as [log1 [e | packages]];
      cbn [fst snd].
    + intros _. rewrite !existsb_app. simpl. now rewrite !orb_true_r.
    + match goal with |- context [create w ?r] =>
        destruct (create w r) as [e | app] end; [|discriminate].
      intros _. cbn [fst]. rewrite !existsb_app. simpl.
      now rewrite !orb_true_r.
  - apply (adk_exit env w). now rewrite N.
Qed.

Lemma failed_deployment_reported_witness :
  ((exists e, uv_export Runs.engine_down = UvRaised e)
   \/ (exists request e, create Runs.engine_down request = inl e))
  /\ existsb is_error (fst (deploy_agent Scenario.full_env Runs.engine_down))
     = true
  /\ snd (main Scenario.full_env Runs.engine_down) = 1%Z.
Proof. apply failed_deployment_reported. reflexivity. Defined.

End EngineMore.

Lemma empty_requirements_witness :
  exists requirements,
    snd (DeployAdkAgent.generate_requirements Runs.engine_without_sessions)
    = inr requirements
    /\ length requirements = 6.
Proof.
  apply (proj2 (empty_requirements Runs.engine_without_sessions)
           "exit status 2" "no pyproject.toml").
  reflexivity.
Defined.

(** ** The test loops of the invocation scripts *)

Section TestLoops.
Import Py ResponseUtils Invocations Spec Reading.

(** On shaped tuples the loop prints at least one line, none of which
    reports an exception. *)
Lemma display_loop_clean ts :
  Forall shaped ts ->
  forall out,
    existsb is_error_line out = false ->
    existsb is_error_line (fst (display_loop ts out)) = false.
Proof.
  induction 1 as [|[tag content] ts Ht _ IH]; intros out Hout; simpl;
    [assumption|].
  destruct Ht as [(Htag & s & Hs) | [(Htag & name & args & Hc) | Htag]];
    simpl in *; subst; simpl; apply IH;
    rewrite ?existsb_app, Hout; reflexivity.
Qed.

Lemma display_clean stream_events response_parts :
  process_stream_response stream_events = Ok response_parts ->
  snd (display_response_parts response_parts) = None
  /\ fst (display_response_parts response_parts) <> []
  /\ existsb is_error_line (fst (display_response_parts response_parts)) = false.
Proof.
  intros Hrun. apply output_shaped in Hrun.
  destruct response_parts as [|t ts].
  - repeat split. discriminate.
  - unfold display_response_parts.
    destruct (display_loop_shaped (t :: ts) Hrun []) as (lines & E & _ & N).
    rewrite E. simpl. repeat split.
    + apply N. discriminate.
    + pose proof (display_loop_clean (t :: ts) Hrun [] eq_refl) as C.
      now rewrite E in C.
Qed.

Lemma process_stream_inr s response_parts :
  process_stream s = inr response_parts ->
  process_stream_response (events s) = Ok response_parts /\ failure s = None.
Proof.
  unfold process_stream.
  destruct (process_stream_response (events s)) as [out|e]; [|discriminate].
  destruct (failure s); [discriminate|]. intros [= <-]. split; reflexivity.
Qed.

(** X21. Every query is answered on the console: whatever the stream
    holds and however it ends, the [try] block of the test loop and its
    handler print at least one line. *)
Theorem query_always_reports (s : stream) : run_query s <> [].
Proof.
  unfold run_query. destruct (process_stream s) as [[e|e] | parts] eqn:P;
    try discriminate.
  apply process_stream_inr in P as [P _].
  destruct (display_clean _ _ P) as (E & N & _).
  destruct (display_response_parts parts) as [out raised]. simpl in *.
  subst raised. exact N.
Qed.

(** X22. What a query prints.  When the stream ends normally and the
    normaliser returns, the query prints what [display_response_parts]
    prints for the list, and no line that reports an exception; when the
    stream fails or the normaliser raises, the query prints the one line
    [Error: ...] and nothing of the parts received before. *)
Theorem query_outcome (s : stream) :
  (forall response_parts,
     process_stream s = inr response_parts ->
     run_query s = fst (display_response_parts response_parts)
     /\ existsb is_error_line (run_query s) = false)
  /\ (forall c,
        process_stream s = inl c ->
        exists e, run_query s = [[Lit "Error: "; e]]).
Proof.
  unfold run_query. split.
  - intros parts P. rewrite P.
    apply process_stream_inr in P as [P _].
    destruct (display_clean _ _ P) as (E & _ & C).
    destruct (display_response_parts parts) as [out raised]. simpl in *.
    subst raised. split; [reflexivity | exact C].
  - intros c P. rewrite P. destruct c; eauto.
Qed.

Lemma query_outcome_witness :
  exists e, run_query Runs.broken = [[Lit "Error: "; e]].
Proof.
  apply (proj2 (query_outcome Runs.broken) (FromStream "503 Service Unavailable")).
  reflexivity.
Defined.

(** X23. No query is lost.  Once [test_deployed_agent] has its session,
    what it prints is its heading, then for each of the five test queries,
    in the order of the list and numbered from 1, the two heading lines of
    the query followed by what the query prints for the stream that
    [stream_query] gives for the session and that query, and last the two
    closing lines; the stream of one query has no part in what is printed
    for another, and no exception leaves the function. *)
Theorem deployed_queries_all_sent (w : world) (agent_resource_name : string)
    (a : agent) (session id : value) :
  init w = None ->
  get w agent_resource_name = inr a ->
  create_session a = inr session ->
  getitem session "id" = Ok id ->
  test_deployed_agent w agent_resource_name
  = ([ [Lit "Testing ADK Agent on Agent Engine..."];
       [Lit (times "=" 60)];
       [Lit ("Agent Resource: " ^^ agent_resource_name)];
       [Lit (times "=" 60)];
       [Lit "✓ Successfully connected to deployed agent"];
       [Lit "✓ Session created: "; render id] ]
     ++ block (stream_query a id) 1 "What's the weather in London?"
     ++ block (stream_query a id) 2 "What time is it in Tokyo?"
     ++ block (stream_query a id) 3 "Tell me about the weather in Paris"
     ++ block (stream_query a id) 4 "What's the current time in Dubai?"
     ++ block (stream_query a id) 5
          "Give me weather for Singapore and time for Hong Kong"
     ++ [ [Lit (String "010" (times "=" 60))];
          [Lit "Deployed agent testing completed!"] ],
     None).
Proof.
  intros I G C S. unfold test_deployed_agent. rewrite I, G, C, S.
  unfold block, test_queries. cbn [query_loop].
  rewrite <- !app_assoc. reflexivity.
Qed.

Lemma deployed_queries_all_sent_witness :
  test_deployed_agent Runs.flaky_platform "projects/p/locations/l/reasoningEngines/7"
  = ([ [Lit "Testing ADK Agent on Agent Engine..."];
       [Lit (times "=" 60)];
       [Lit ("Agent Resource: " ^^ "projects/p/locations/l/reasoningEngines/7")];
       [Lit (times "=" 60)];
       [Lit "✓ Successfully connected to deployed agent"];
       [Lit "✓ Session created: "; render (VStr "s1")] ]
     ++ block (stream_query Runs.flaky_agent (VStr "s1")) 1
          "What's the weather in London?"
     ++ block (stream_query Runs.flaky_agent (VStr "s1")) 2
          "What time is it in Tokyo?"
     ++ block (stream_query Runs.flaky_agent (VStr "s1")) 3
          "Tell me about the weather in Paris"
     ++ block (stream_query Runs.flaky_agent (VStr "s1")) 4
          "What's the current time in Dubai?"
     ++ block (stream_query Runs.flaky_agent (VStr "s1")) 5
          "Give me weather for Singapore and time for Hong Kong"
     ++ [ [Lit (String "010" (times "=" 60))];
          [Lit "Deployed agent testing completed!"] ],
     None).
Proof.
  apply (deployed_queries_all_sent Runs.flaky_platform
           "projects/p/locations/l/reasoningEngines/7" Runs.flaky_agent
           (VDict [("id", VStr "s1")]) (VStr "s1"));
    reflexivity.
Defined.

(** X24. No session, no query.  When the agent is not found, the session
    cannot be created or the session has no [id], [test_deployed_agent]
    prints the line of the connection error last, sends no test query, and
    returns without an exception. *)
Theorem no_session_no_query (w : world) (agent_resource_name : string) :
  init w = None ->
  session_id w agent_resource_name = None ->
  snd (test_deployed_agent w agent_resource_name) = None
  /\ (exists e,
        last (fst (test_deployed_agent w agent_resource_name)) []
        = [Lit "✗ Error connecting to deployed agent: "; e])
  /\ (forall i query,
        ~ In (test_line i query)
             (fst (test_deployed_agent w agent_resource_name))).
Proof.
  intros I. unfold session_id, test_deployed_agent. rewrite I.
  destruct (get w agent_resource_name) as [e | a].
  - intros _. cbn [fst snd]. repeat split; [eexists; reflexivity|].
    intros i query. simpl. unfold test_line. intuition discriminate.
  - destruct (create_session a) as [e | session].
    + intros _. cbn [fst snd]. repeat split; [eexists; reflexivity|].
      intros i query. simpl. unfold test_line. intuition discriminate.
    + destruct (getitem session "id") as [id | e]; [discriminate|].
      intros _. cbn [fst snd]. repeat split; [eexists; reflexivity|].
      intros i query. simpl. unfold test_line. intuition discriminate.
Qed.

Lemma no_session_no_query_witness :
  snd (test_deployed_agent Runs.unknown_agent "projects/p/locations/l/reasoningEngines/7")
  = None
  /\ (exists e,
        last (fst (test_deployed_agent Runs.unknown_agent
                     "projects/p/locations/l/reasoningEngines/7")) []
        = [Lit "✗ Error connecting to deployed agent: "; e])
  /\ (forall i query,
        ~ In (test_line i query)
             (fst (test_deployed_agent Runs.unknown_agent
                     "projects/p/locations/l/reasoningEngines/7"))).
Proof. apply no_session_no_query; reflexivity. Defined.

(** X25. The local script guards less.  Once the application and its
    session exist, what [test_agent] prints is its heading, then for each of
    the five test queries, in the order of the list and numbered from 1,
    the two heading lines of the query followed by what the query prints
    for the stream that [stream_query] gives for the session and that
    query, and last the two closing lines; no exception of a query leaves
    the function.  An exception of the constructor or of [create_session]
    is not caught: it leaves the function after the two lines of the
    heading, before any query. *)
Theorem local_test_runs (app : string + local_app) :
  (forall a id,
     app = inr a -> local_session a = inr id ->
     test_agent app
     = ([ [Lit "Testing ADK Agent locally..."];
          [Lit (times "=" 60)] ]
        ++ block (local_stream_query a id) 1 "What's the weather in London?"
        ++ block (local_stream_query a id) 2 "What time is it in Tokyo?"
        ++ block (local_stream_query a id) 3 "Tell me about the weather in Paris"
        ++ block (local_stream_query a id) 4 "What's the current time in Dubai?"
        ++ block (local_stream_query a id) 5
             "Give me weather for Singapore and time for Hong Kong"
        ++ [ [Lit (String "010" (times "=" 60))];
             [Lit "Local invocation with vertexai reasoning engine completed!"] ],
        None))
  /\ (forall e,
        app = inl e
        \/ (exists a, app = inr a /\ local_session a = inl e) ->
        test_agent app
        = ([ [Lit "Testing ADK Agent locally..."];
             [Lit (times "=" 60)] ],
           Some e)).
Proof.
  split.
  - intros a id -> S. unfold test_agent. rewrite S.
    unfold block, test_queries. cbn [query_loop].
    rewrite <- !app_assoc. reflexivity.
  - intros e [-> | (a & -> & S)]; unfold test_agent; rewrite ?S; reflexivity.
Qed.

Lemma local_test_runs_witness :
  test_agent
    (inr {| local_session := inr (VStr "s1");
            local_stream_query := stream_query Runs.flaky_agent |})
  = ([ [Lit "Testing ADK Agent locally..."];
       [Lit (times "=" 60)] ]
     ++ block (stream_query Runs.flaky_agent (VStr "s1")) 1
          "What's the weather in London?"
     ++ block (stream_query Runs.flaky_agent (VStr "s1")) 2
          "What time is it in Tokyo?"
     ++ block (stream_query Runs.flaky_agent (VStr "s1")) 3
          "Tell me about the weather in Paris"
     ++ block (stream_query Runs.flaky_agent (VStr "s1")) 4
          "What's the current time in Dubai?"
     ++ block (stream_query Runs.flaky_agent (VStr "s1")) 5
          "Give me weather for Singapore and time for Hong Kong"
     ++ [ [Lit (String "010" (times "=" 60))];
          [Lit "Local invocation with vertexai reasoning engine completed!"] ],
     None).
Proof.
  apply (proj1 (local_test_runs
                  (inr {| local_session := inr (VStr "s1");
                          local_stream_query := stream_query Runs.flaky_agent |}))
           {| local_session := inr (VStr "s1");
              local_stream_query := stream_query Runs.flaky_agent |}
           (VStr "s1"));
    reflexivity.
Defined.

End TestLoops.

(** ** The demo loop of adk_agent.py *)

Section Demo.
Import Py AdkDemo Spec Reading.

Lemma joined_app a b : joined (a ++ b) = joined a ^^ joined b.
Proof.
  induction a as [|c a IH]; simpl; [reflexivity|].
  now rewrite IH, !append_assoc.
Qed.

(** What one part adds to the three accumulators. *)
Lemma consume_part_adds st p :
  response_text (consume_part st p)
  = response_text st ^^ joined (chunks [p])
  /\ function_calls (consume_part st p) = function_calls st ++ calls [p]
  /\ function_responses (consume_part st p)
     = function_responses st ++ responses [p].
Proof.
  unfold consume_part, chunks, calls, responses. simpl.
  destruct (text p) as [[|c t]|]; simpl.
  - destruct (function_call p), (function_response p); simpl;
      rewrite ?app_nil_r, ?append_empty_r; repeat split.
  - destruct (strip (String c t)) as [|c' t'] eqn:S; simpl;
      rewrite ?app_nil_r, ?append_empty_r; repeat split.
  - destruct (function_call p), (function_response p); simpl;
      rewrite ?app_nil_r, ?append_empty_r; repeat split.
Qed.

Lemma chunks_cons p ps : chunks (p :: ps) = chunks [p] ++ chunks ps.
Proof. unfold chunks. simpl. now rewrite app_nil_r. Qed.

Lemma calls_cons p ps : calls (p :: ps) = calls [p] ++ calls ps.
Proof. unfold calls. simpl. now rewrite app_nil_r. Qed.

Lemma responses_cons p ps : responses (p :: ps) = responses [p] ++ responses ps.
Proof. unfold responses. simpl. now rewrite app_nil_r. Qed.

Lemma consume_parts_add parts : forall st,
  response_text (fold_left consume_part parts st)
  = response_text st ^^ joined (chunks parts)
  /\ function_calls (fold_left consume_part parts st)
     = function_calls st ++ calls parts
  /\ function_responses (fold_left consume_part parts st)
     = function_responses st ++ responses parts.
Proof.
  induction parts as [|p parts IH]; intros st; cbn [fold_left].
  - change (chunks []) with (@nil string).
    change (calls []) with (@nil call).
    change (responses []) with (@nil response). simpl.
    rewrite append_empty_r, !app_nil_r. repeat split.
  - destruct (IH (consume_part st p)) as (T & C & R).
    destruct (consume_part_adds st p) as (T1 & C1 & R1).
    rewrite (chunks_cons p parts), (calls_cons p parts),
      (responses_cons p parts).
    rewrite T, C, R, T1, C1, R1, joined_app.
    rewrite append_assoc, <- !app_assoc. repeat split.
Qed.

Lemma chunks_app a b : chunks (a ++ b) = chunks a ++ chunks b.
Proof. unfold chunks. apply flat_map_app. Qed.

Lemma calls_app a b : calls (a ++ b) = calls a ++ calls b.
Proof. unfold calls. apply flat_map_app. Qed.

Lemma responses_app a b : responses (a ++ b) = responses a ++ responses b.
Proof. unfold responses. apply flat_map_app. Qed.

Lemma consume_events_add events : forall st st',
  consume_events events st = Ok st' ->
  response_text st' = response_text st ^^ joined (chunks (demo_parts events))
  /\ function_calls st' = function_calls st ++ calls (demo_parts events)
  /\ function_responses st'
     = function_responses st ++ responses (demo_parts events).
Proof.
  unfold consume_events.
  induction events as [|e events IH]; intros st st'.
  - simpl. intros [= <-]. rewrite append_empty_r, !app_nil_r. repeat split.
  - cbn [ResponseUtils.for_each]. unfold consume_event at 1.
    change (demo_parts (e :: events))
      with (match content e with
            | Some (Some parts) => parts
            | _ => []
            end ++ demo_parts events).
    destruct (content e) as [[parts|]|]; cbn [bind]; try discriminate.
    + intros H. apply IH in H as (T & C & R).
      destruct (consume_parts_add parts st) as (T1 & C1 & R1).
      rewrite T, C, R, T1, C1, R1.
      rewrite chunks_app, calls_app, responses_app, joined_app.
      rewrite append_assoc, <- !app_assoc. repeat split.
    + apply IH.
Qed.

(** X26. What the demo loop has gathered when the stream of a query ends:
    the response text is the trimmed text of every part whose text is not
    blank, each followed by one space, in order; the function calls are
    those of the parts without text, the function responses those of the
    parts with neither text nor call. *)
Theorem demo_loop_gathers (events : list event) (st : state) :
  consume_events events initial = Ok st ->
  response_text st = joined (chunks (demo_parts events))
  /\ function_calls st = calls (demo_parts events)
  /\ function_responses st = responses (demo_parts events).
Proof. intros H. apply consume_events_add in H. exact H. Qed.

Lemma demo_loop_gathers_witness :
  response_text (fold_left consume_part [Runs.blank_with_call; Runs.rainy]
                   (fold_left consume_part [Runs.weather_call] initial))
  = joined (chunks (demo_parts Runs.demo_events))
  /\ function_calls (fold_left consume_part [Runs.blank_with_call; Runs.rainy]
                       (fold_left consume_part [Runs.weather_call] initial))
     = calls (demo_parts Runs.demo_events)
  /\ function_responses
       (fold_left consume_part [Runs.blank_with_call; Runs.rainy]
          (fold_left consume_part [Runs.weather_call] initial))
     = responses (demo_parts Runs.demo_events).
Proof. apply (demo_loop_gathers Runs.demo_events). reflexivity. Defined.

(** X27. The loop over the events of a query returns exactly when every
    event that has a content has a list of parts; an event whose content
    has [parts] set to [None] raises [TypeError], which nothing in the demo
    catches. *)
Theorem demo_loop_returns (events : list event) (st : state) :
  (forallb has_parts_list events = true ->
   exists st', consume_events events st = Ok st')
  /\ (forallb has_parts_list events = false ->
      consume_events events st = Raise TypeError).
Proof.
  unfold consume_events. revert st.
  induction events as [|e events IH]; intros st.
  - simpl. split; [eauto | discriminate].
  - destruct e as [[[parts|]|]];
      cbn [forallb ResponseUtils.for_each has_parts_list consume_event
             content bind andb].
    + apply IH.
    + split; [discriminate | reflexivity].
    + apply IH.
Qed.

Lemma demo_loop_returns_witness :
  consume_events
    [ {| content := Some (Some [Runs.rainy]) |}; {| content := Some None |} ]
    initial
  = Raise TypeError.
Proof.
  apply (proj2 (demo_loop_returns
                  [ {| content := Some (Some [Runs.rainy]) |};
                    {| content := Some None |} ] initial)).
  reflexivity.
Defined.

Lemma chunk_shape parts :
  Forall (fun c => exists a t, c = String a t /\ is_space a = false)
         (chunks parts).
Proof.
  unfold chunks. apply Forall_forall. intros c I.
  apply in_flat_map in I as (p & _ & I).
  destruct (text p) as [t|]; [|contradiction].
  destruct (strip t) as [|a t'] eqn:S; [contradiction|].
  destruct I as [<- | []]. exists a, t'. split; [reflexivity|].
  destruct (strip_trimmed t) as (_ & F & _). apply F. now rewrite S.
Qed.

Lemma strip_of_text a t : is_space a = false -> strip (String a t) <> "".
Proof.
  intros N. unfold strip. simpl. rewrite N. simpl.
  destruct (rstrip t); [now rewrite N | discriminate].
Qed.

Lemma joined_blank cs :
  Forall (fun c => exists a t, c = String a t /\ is_space a = false) cs ->
  (strip (joined cs) = "" <-> cs = []).
Proof.
  intros F. split.
  - destruct F as [|c cs (a & t & -> & N) _]; [reflexivity|].
    simpl. intros H. exfalso. revert H. now apply strip_of_text.
  - intros ->. reflexivity.
Qed.

(** X28. The notice of the summary.  After the events of a query, the
    summary prints [No text response received] exactly when no part had a
    text that is not blank; function calls and responses alone do not count
    as a response. *)
Theorem no_text_notice (events : list event) (st : state) :
  consume_events events initial = Ok st ->
  (In (Line [Lit (String "010" "No text response received")]) (summary st)
   <-> chunks (demo_parts events) = []).
Proof.
  intros H. apply consume_events_add in H as (T & _ & _). simpl in T.
  rewrite <- (joined_blank _ (chunk_shape (demo_parts events))), <- T.
  unfold summary.
  destruct (strip (response_text st)) as [|a t] eqn:S; simpl.
  - split; [reflexivity|]. intros _. right.
    apply in_or_app. right. apply in_or_app. right. now left.
  - split; [|discriminate]. intros [D | I]; [discriminate D|].
    exfalso.
    apply in_app_or in I as [I | I].
    + destruct (function_calls st); [contradiction|].
      destruct I as [D | I]; [discriminate D|].
      apply in_map_iff in I as (x & D & _). discriminate D.
    + apply in_app_or in I as [I | I].
      * destruct (function_responses st); [contradiction|].
        destruct I as [D | I]; [discriminate D|].
        apply in_map_iff in I as (x & D & _). discriminate D.
      * destruct I as [D | []]. discriminate D.
Qed.

Lemma no_text_notice_witness :
  In (Line [Lit (String "010" "No text response received")])
     (summary (fold_left consume_part [Runs.blank_with_call] initial))
  <-> chunks (demo_parts [ {| content := Some (Some [Runs.blank_with_call]) |} ])
      = [].
Proof.
  apply (no_text_notice [ {| content := Some (Some [Runs.blank_with_call]) |} ]).
  reflexivity.
Defined.

(** X29. A text hides a call.  A part whose text is not empty adds no
    function call and no function response, even when its text is blank
    and it carries a call: after events made only of such parts the two
    lists are empty. *)
Theorem text_hides_calls (events : list event) (st : state) :
  Forall (fun p => truthy (text p) = true) (demo_parts events) ->
  consume_events events initial = Ok st ->
  function_calls st = [] /\ function_responses st = [].
Proof.
  intros F H. apply consume_events_add in H as (_ & C & R). simpl in C, R.
  rewrite C, R. clear C R. unfold calls, responses.
  set (parts := demo_parts events) in *. clearbody parts.
  induction F as [|p ps Hp _ IH]; simpl; [split; reflexivity|].
  rewrite Hp. simpl. exact IH.
Qed.

Lemma text_hides_calls_witness :
  function_calls (fold_left consume_part [Runs.blank_with_call] initial) = []
  /\ function_responses (fold_left consume_part [Runs.blank_with_call] initial)
     = [].
Proof.
  apply (text_hides_calls [ {| content := Some (Some [Runs.blank_with_call]) |} ]).
  - repeat constructor.
  - reflexivity.
Defined.

End Demo.

(** ** The scripts as processes: two runs *)

Section ProcessExamples.

(** [subprocess.run] may not execute [gcloud]: the run of
    [deploy_to_agentspace.py] ends with that exception, after the eight
    records of the configuration and before any request. *)
Example forbidden_gcloud_example :
  snd (Scripts.deploy_to_agentspace_script Scenario.full_env
         Runs.gcloud_forbidden)
  = Scripts.Traceback "[Errno 13] Permission denied: 'gcloud'"
  /\ length (fst (Scripts.deploy_to_agentspace_script Scenario.full_env
                    Runs.gcloud_forbidden)) = 8.
Proof. split; reflexivity. Qed.

(** [vertexai.init] refuses a configuration without a location: the run of
    [deploy_adk_agent.py] ends at the import, nothing is logged. *)
Example strict_init_example :
  Scripts.deploy_adk_agent_script
    {| PROJECT_ID := Some "demo-project";
       PROJECT_NUMBER := Some "1234567890";
       LOCATION := None;
       STAGING_BUCKET := Some "gs://demo-bucket";
       APP_ID := Some "demo-app";
       ADK_DEPLOYMENT_ID := Some "4242" |}
    Runs.engine_process_strict
  = ([], Scripts.Traceback "Unsupported region for Vertex AI").
Proof. reflexivity. Qed.

End ProcessExamples.
